(** * web-scraper.py: the heuristic extractors over a BeautifulSoup tree

    A shallow embedding of [src/web-scraper.py].  The program parses a page
    with [BeautifulSoup(page_source, 'html.parser')] and runs a handful of
    independent extractors over the resulting tree.  The tree is the input
    of every function below; the operations of bs4 and soupsieve that the
    program calls ([select], [find_all], [find], [get_text],
    [stripped_strings], [descendants]) are written out as list functions
    over it, and the pieces of Python's [str] and [re] that the program
    uses are written out over Rocq strings.

    Text.  A Python [str] is modelled as a Rocq [string] whose characters
    are the code points 0..255; on that range [str.lower], [str.strip] and
    the regular-expression class [\d] act character by character exactly as
    defined in [Module Py]. *)

From Stdlib Require Import String Ascii List Bool Arith NArith Lia Permutation.
Import ListNotations.
Open Scope string_scope.

(** ** Python strings and regular expressions *)

Module Py.

Definition ord (c : ascii) : N := N_of_ascii c.

(** [str.isspace] on one character: TAB..CR, FS..US, space, NEL, NBSP. *)
Definition isspace (c : ascii) : bool :=
  let o := ord c in
  ((9 <=? o) && (o <=? 13) || (28 <=? o) && (o <=? 32)
   || (o =? 133) || (o =? 160))%N.

(** The class [\d]. *)
Definition isdigit (c : ascii) : bool :=
  let o := ord c in ((48 <=? o) && (o <=? 57))%N.

Definition lower_char (c : ascii) : ascii :=
  let o := ord c in
  if ((65 <=? o) && (o <=? 90)
      || (192 <=? o) && (o <=? 222) && negb (o =? 215))%N
  then ascii_of_N (o + 32) else c.

(** [s.lower()] *)
Fixpoint lower (s : string) : string :=
  match s with
  | EmptyString => EmptyString
  | String c s' => String (lower_char c) (lower s')
  end.

Fixpoint lstrip (s : string) : string :=
  match s with
  | EmptyString => EmptyString
  | String c s' => if isspace c then lstrip s' else s
  end.

Fixpoint rstrip (s : string) : string :=
  match s with
  | EmptyString => EmptyString
  | String c s' =>
      match rstrip s' with
      | EmptyString => if isspace c then EmptyString else String c EmptyString
      | r => String c r
      end
  end.

(** [s.strip()] *)
Definition strip (s : string) : string := rstrip (lstrip s).

(** [sub in s] *)
Fixpoint contains (sub s : string) : bool :=
  prefix sub s
  || match s with
     | EmptyString => false
     | String _ s' => contains sub s'
     end.

(** The relation [contains] decides: [sub] occurs in [s]. *)
Definition Substring (sub s : string) : Prop :=
  exists a b, s = a ++ sub ++ b.

(** [s.replace(old, new)] for a one-character [old]. *)
Fixpoint replace (old : ascii) (new s : string) : string :=
  match s with
  | EmptyString => EmptyString
  | String c s' =>
      if Ascii.eqb c old then new ++ replace old new s'
      else String c (replace old new s')
  end.

(** [sep.join(l)] *)
Definition join (sep : string) (l : list string) : string := String.concat sep l.

(** [s[:n]] *)
Definition slice_to (n : nat) (s : string) : string := substring 0 n s.

(** [str(b)] as an f-string renders a bool. *)
Definition str_of_bool (b : bool) : string := if b then "True" else "False".

(** Truth value of a [str]. *)
Definition truthy (s : string) : bool :=
  match s with EmptyString => false | _ => true end.

(** A greedy character-class run: the longest prefix of [s] in the class. *)
Fixpoint take_while (p : ascii -> bool) (s : string) : string :=
  match s with
  | EmptyString => EmptyString
  | String c s' => if p c then String c (take_while p s') else EmptyString
  end.

Definition digit_or_comma (c : ascii) : bool :=
  isdigit c || Ascii.eqb c ","%char.

(** [re.findall] with the pattern of line 68, a digit followed by a greedy
    run of digits and commas: the non-overlapping matches from left to
    right.  [inside] tells that the scan is still within the run of the
    match reported last. *)
Fixpoint findall_from (inside : bool) (s : string) : list string :=
  match s with
  | EmptyString => []
  | String c s' =>
      if inside then findall_from (digit_or_comma c) s'
      else if isdigit c
           then String c (take_while digit_or_comma s') :: findall_from true s'
           else findall_from false s'
  end.

Definition re_findall_count (s : string) : list string := findall_from false s.

(** [re.search] with the pattern of line 131, a greedy run of one or more
    digits, and its group 1. *)
Fixpoint re_search_digits (s : string) : option string :=
  match s with
  | EmptyString => None
  | String c s' =>
      if isdigit c then Some (String c (take_while isdigit s'))
      else re_search_digits s'
  end.

(** Exceptions the program can meet, and the result of a call that may
    raise. *)
Inductive exn := TypeError | KeyError | IndexError.

Inductive Exc (A : Type) : Type :=
| Return (a : A)
| Raise (e : exn).
Arguments Return {A} a.
Arguments Raise {A} e.

Definition bind {A B} (m : Exc A) (k : A -> Exc B) : Exc B :=
  match m with
  | Return a => k a
  | Raise e => Raise e
  end.

(** [try: body  except: handler] with a bare [except]. *)
Definition try_except {A} (body : Exc A) (handler : A) : A :=
  match body with
  | Return a => a
  | Raise _ => handler
  end.

End Py.

Notation "x <- m ;; k" := (Py.bind m (fun x => k))
  (at level 61, m at next level, right associativity).

(** ** The parse tree of bs4 *)

Module Bs4.
Import Py.

(** The classes of string nodes the html.parser tree builder creates. *)
Inductive StringClass :=
| NavigableString | CData | Comment | Declaration | Doctype
| ProcessingInstruction | Script | Stylesheet | TemplateString
| RubyTextString | RubyParenthesisString.

Definition StringClass_eqb (a b : StringClass) : bool :=
  match a, b with
  | NavigableString, NavigableString | CData, CData | Comment, Comment
  | Declaration, Declaration | Doctype, Doctype
  | ProcessingInstruction, ProcessingInstruction | Script, Script
  | Stylesheet, Stylesheet | TemplateString, TemplateString
  | RubyTextString, RubyTextString
  | RubyParenthesisString, RubyParenthesisString => true
  | _, _ => false
  end.

(** A node is a string or a tag.  The tree builder stores the [class]
    attribute as the list of its whitespace-separated tokens ([class_],
    [None] when the tag has no such attribute) and the attributes the
    program reads otherwise ([id], [aria-label], [title], [alt], [src]) as
    plain strings ([attrs], a dict in insertion order). *)
#[warnings="-register-all"]
Inductive PageElement :=
| Text (cls : StringClass) (s : string)
| Tag (name : string) (class_ : option (list string))
      (attrs : list (string * string)) (contents : list PageElement).

(** The [BeautifulSoup] object is itself a tag, named [[document]]. *)
Definition BeautifulSoup (contents : list PageElement) : PageElement :=
  Tag "[document]" None [] contents.

Definition is_tag (el : PageElement) : bool :=
  match el with Tag _ _ _ _ => true | Text _ _ => false end.

Definition name_of (el : PageElement) : option string :=
  match el with Tag n _ _ _ => Some n | Text _ _ => None end.

Fixpoint lookup (k : string) (d : list (string * string)) : option string :=
  match d with
  | [] => None
  | (k', v) :: d' => if String.eqb k' k then Some v else lookup k d'
  end.

(** [tag.get(key)] for a string-valued attribute. *)
Definition get (key : string) (el : PageElement) : option string :=
  match el with
  | Tag _ _ attrs _ => lookup key attrs
  | Text _ _ => None
  end.

(** [tag[key]]: [KeyError] when the attribute is missing. *)
Definition getitem (key : string) (el : PageElement) : Exc string :=
  match get key el with
  | Some v => Return v
  | None => Raise KeyError
  end.

(** [tag['class']] when the tag has the attribute. *)
Definition get_class (el : PageElement) : option (list string) :=
  match el with
  | Tag _ c _ _ => c
  | Text _ _ => None
  end.

(** [el.descendants]: every node below [el], in document order. *)
Fixpoint self_and_descendants (el : PageElement) : list PageElement :=
  el :: match el with
        | Text _ _ => []
        | Tag _ _ _ contents => flat_map self_and_descendants contents
        end.

Definition descendants (el : PageElement) : list PageElement :=
  match el with
  | Text _ _ => []
  | Tag _ _ _ contents => flat_map self_and_descendants contents
  end.

(** [Tag.interesting_string_types]: the string classes [get_text] and
    [stripped_strings] look at, fixed by the tag's name. *)
Definition interesting_string_types (name : string) : list StringClass :=
  if String.eqb name "script" then [Script]
  else if String.eqb name "style" then [Stylesheet]
  else if String.eqb name "template" then [TemplateString]
  else if String.eqb name "rt" then [RubyTextString]
  else if String.eqb name "rp" then [RubyParenthesisString]
  else [NavigableString; CData].

Definition of_types (types : list StringClass) (c : StringClass) : bool :=
  existsb (StringClass_eqb c) types.

(** What one string node contributes to [_all_strings]. *)
Definition yield_string (strip_ : bool) (types : list StringClass)
    (el : PageElement) : list string :=
  match el with
  | Tag _ _ _ _ => []
  | Text c s =>
      if of_types types c then
        if strip_ then
          let s' := strip s in
          if (String.length s' =? 0)%nat then [] else [s']
        else [s]
      else []
  end.

(** [el._all_strings(strip)].  On a string node the default types apply and
    an empty value is never yielded. *)
Definition all_strings (strip_ : bool) (el : PageElement) : list string :=
  match el with
  | Tag name _ _ _ =>
      flat_map (yield_string strip_ (interesting_string_types name))
               (descendants el)
  | Text c s =>
      if of_types [NavigableString; CData] c then
        let value := if strip_ then strip s else s in
        if (0 <? String.length value)%nat then [value] else []
      else []
  end.

(** [el.get_text(separator, strip)] *)
Definition get_text (separator : string) (strip_ : bool)
    (el : PageElement) : string :=
  join separator (all_strings strip_ el).

(** [el.stripped_strings] *)
Definition stripped_strings (el : PageElement) : list string :=
  all_strings true el.

(** soupsieve compares tag and attribute names through its own
    ASCII-only [lower]. *)
Definition sv_lower_char (c : ascii) : ascii :=
  let o := ord c in
  if ((65 <=? o) && (o <=? 90))%N then ascii_of_N (o + 32) else c.

Fixpoint sv_lower (s : string) : string :=
  match s with
  | EmptyString => EmptyString
  | String c s' => String (sv_lower_char c) (sv_lower s')
  end.

Definition match_tagname (names : list string) (el : PageElement) : bool :=
  match el with
  | Tag n _ _ _ => existsb (String.eqb (sv_lower n)) names
  | Text _ _ => false
  end.

(** [soup.select('a, b, ...')] for a list of type selectors: the matching
    tags below [soup], in document order. *)
Definition select (names : list string) (soup : PageElement)
  : list PageElement :=
  filter (match_tagname names) (descendants soup).

(** soupsieve's [match_attribute_name]: the value of the first attribute
    whose lowered name is [attr]. *)
Fixpoint match_attribute_name (attr : string) (d : list (string * string))
  : option string :=
  match d with
  | [] => None
  | (k, v) :: d' =>
      if String.eqb (sv_lower attr) (sv_lower k) then Some v
      else match_attribute_name attr d'
  end.

(** The compound selector [name[attr*="value"]]. *)
Definition match_attr_contains (name attr value : string)
    (el : PageElement) : bool :=
  match el with
  | Tag _ _ attrs _ =>
      match_tagname [name] el
      && match match_attribute_name attr attrs with
         | Some v => contains value v
         | None => false
         end
  | Text _ _ => false
  end.

(** [soup.select_one('name[attr*="value"]')]: the first match or [None]. *)
Definition select_one_attr_contains (name attr value : string)
    (soup : PageElement) : option PageElement :=
  find (match_attr_contains name attr value) (descendants soup).

(** [el.find_all(f)] for a function [f] of a tag: strings never match. *)
Definition find_all (f : PageElement -> bool) (el : PageElement)
  : list PageElement :=
  filter (fun d => is_tag d && f d) (descendants el).

(** [el.find(f)]: the first match or [None]. *)
Definition find_tag (f : PageElement -> bool) (el : PageElement)
  : option PageElement :=
  find (fun d => is_tag d && f d) (descendants el).

(** [el.find(f)] when [f] may raise: the scan stops at the first tag on
    which [f] raises or answers true. *)
Fixpoint find_raising (f : PageElement -> Exc bool) (l : list PageElement)
  : Exc (option PageElement) :=
  match l with
  | [] => Return None
  | d :: l' =>
      if is_tag d then
        b <- f d ;;
        if b then Return (Some d) else find_raising f l'
      else find_raising f l'
  end.

(** [el.find_all(string=f)]: the string nodes of every class, in document
    order, on which [f] holds. *)
Definition find_all_string (f : string -> bool) (el : PageElement)
  : list string :=
  flat_map (fun d => match d with
                     | Text _ s => if f s then [s] else []
                     | Tag _ _ _ _ => []
                     end) (descendants el).

(** The html.parser tree builder lower-cases attribute names. *)
Definition lowered_names (el : PageElement) : bool :=
  match el with
  | Tag _ _ attrs _ =>
      forallb (fun kv => String.eqb (sv_lower (fst kv)) (fst kv)) attrs
  | Text _ _ => true
  end.

Definition from_html_parser (soup : PageElement) : Prop :=
  Forall (fun el => lowered_names el = true) (descendants soup).

End Bs4.

(** ** The extractors of web-scraper.py *)

Module WebScraper.
Import Py Bs4.

(** *** Lines 9-14 *)

Fixpoint extract_name_loop (tags : list PageElement) : string :=
  match tags with
  | [] => "N/A"
  | tag :: rest =>
      let text := get_text EmptyString true tag in
      if (4 <? String.length text)%nat then text else extract_name_loop rest
  end.

Definition extract_name (soup : PageElement) : string :=
  extract_name_loop (select ["h1"; "h2"] soup).

(** *** Lines 16-21 *)

Fixpoint extract_price_loop (tags : list PageElement) : string :=
  match tags with
  | [] => "N/A"
  | tag :: rest =>
      let txt := lower (get_text EmptyString true tag) in
      if contains "$" txt || contains "usd" txt then txt
      else extract_price_loop rest
  end.

Definition extract_price (soup : PageElement) : string :=
  extract_price_loop (select ["span"; "div"] soup).

(** *** Lines 23-28 *)

(** [img_tag['src']] where [img_tag] may be [None]. *)
Definition subscript (img_tag : option PageElement) (key : string)
  : Exc string :=
  match img_tag with
  | None => Raise TypeError
  | Some tag => getitem key tag
  end.

Definition extract_image (soup : PageElement) : string :=
  try_except
    (let img_tag := select_one_attr_contains "img" "src" "product" soup in
     subscript img_tag "src")
    "N/A".

(** *** Lines 30-34 *)

Fixpoint extract_ingredients_loop (tags : list PageElement) : string :=
  match tags with
  | [] => "N/A"
  | tag :: rest =>
      if contains "ingredient" (lower (get_text EmptyString true tag))
      then get_text " " true tag
      else extract_ingredients_loop rest
  end.

Definition extract_ingredients (soup : PageElement) : string :=
  extract_ingredients_loop (select ["div"; "section"; "p"] soup).

(** *** Lines 36-57 *)

(** A Python [set] of strings is iterated in an order that depends on the
    hashes of its members, which change from one interpreter process to the
    next.  [set_iter adds] is the order in which a set built by the calls
    [add(x)] for [x] in [adds] is iterated: each member once. *)
Record SetOrder := {
  set_iter :> list string -> list string;
  set_iter_NoDup : forall adds, NoDup (set_iter adds);
  set_iter_In : forall adds x, In x (set_iter adds) <-> In x adds
}.

(** One such order: members in the order of their last insertion. *)
Definition insertion_order : SetOrder :=
  {| set_iter := nodup string_dec;
     set_iter_NoDup := NoDup_nodup string_dec;
     set_iter_In := fun adds x => nodup_In string_dec adds x |}.

(** [any('shade' in c.lower() for c in tag['class'])] guarded by
    [has_attr('class')], and its like for other words. *)
Definition class_has (word : string) (tag : PageElement) : bool :=
  match get_class tag with
  | Some cs => existsb (fun c => contains word (lower c)) cs
  | None => false
  end.

(** [tag.has_attr(key) and word in tag[key].lower()] *)
Definition attr_has (key word : string) (tag : PageElement) : bool :=
  match get key tag with
  | Some v => contains word (lower v)
  | None => false
  end.

Definition selectors (soup : PageElement) : list PageElement :=
  find_all (class_has "shade") soup
  ++ find_all (attr_has "id" "shade") soup
  ++ find_all (attr_has "aria-label" "shade") soup
  ++ find_all (attr_has "title" "shade") soup.

(** [hasattr(descendant, 'get_text')]: [get_text] is a method of
    [PageElement], which tags and strings both inherit. *)
Definition hasattr_get_text (descendant : PageElement) : bool := true.

Definition has_attr (key : string) (el : PageElement) : bool :=
  match get key el with Some _ => true | None => false end.

(** The body of the inner loop, lines 47-54: the strings one descendant
    adds to [shade_candidates]. *)
Definition shade_adds (descendant : PageElement) : list string :=
  if hasattr_get_text descendant then
    let txt := get_text EmptyString true descendant in
    if truthy txt then [txt] else []
  else if has_attr "alt" descendant then
    match get "alt" descendant with Some v => [v] | None => [] end
  else if has_attr "title" descendant then
    match get "title" descendant with Some v => [v] | None => [] end
  else [].

(** The sequence of [add] calls of lines 45-54. *)
Definition shade_candidates (soup : PageElement) : list string :=
  flat_map (fun elem => flat_map shade_adds (descendants elem))
           (selectors soup).

Definition extract_shades (order : SetOrder) (soup : PageElement)
  : list string :=
  let shades :=
    filter (fun x => negb (String.eqb (strip x) EmptyString))
           (order (shade_candidates soup)) in
  match shades with
  | [] => ["N/A"]
  | _ => shades
  end.

(** *** Lines 61-89 *)

(** Python values held by the dicts the program builds. *)
Inductive value :=
| VStr (s : string)
| VBool (b : bool)
| VList (l : list string).

(** A dict, keys in insertion order. *)
Definition dict := list (string * value).

Fixpoint dict_get (k : string) (d : dict) : option value :=
  match d with
  | [] => None
  | (k', v) :: d' => if String.eqb k' k then Some v else dict_get k d'
  end.

(** [d[k] = v] *)
Fixpoint setitem (d : dict) (k : string) (v : value) : dict :=
  match d with
  | [] => [(k, v)]
  | (k', v') :: d' =>
      if String.eqb k' k then (k', v) :: d' else (k', v') :: setitem d' k v
  end.

(** [d.update(other)] *)
Definition update (d other : dict) : dict :=
  fold_left (fun acc kv => setitem acc (fst kv) (snd kv)) other d.

(** The filter of line 64. *)
Definition review_count_text (text : string) : bool :=
  truthy text
  && (contains "review" (lower text) || contains "rating" (lower text)).

Fixpoint num_reviews_loop (review_count_tags : list string) : string :=
  match review_count_tags with
  | [] => "N/A"
  | text :: rest =>
      match re_findall_count text with
      | m0 :: _ => replace ","%char EmptyString m0
      | [] => num_reviews_loop rest
      end
  end.

Definition number_of_reviews (soup : PageElement) : string :=
  num_reviews_loop (find_all_string review_count_text soup).

Definition bestseller (soup : PageElement) : bool :=
  existsb (fun s => contains "bestseller" (lower s)) (stripped_strings soup).

Definition stock_out_indicators : list string :=
  ["out of stock"; "sold out"; "unavailable"].

Fixpoint stock_loop (page_text : string) (phrases : list string) : string :=
  match phrases with
  | [] => "In stock"
  | phrase :: rest =>
      if contains phrase page_text then "Out of stock"
      else stock_loop page_text rest
  end.

Definition page_text (soup : PageElement) : string :=
  lower (join " " (stripped_strings soup)).

Definition stock_status (soup : PageElement) : string :=
  stock_loop (page_text soup) stock_out_indicators.

Definition extract_sales_proxies (soup : PageElement) : dict :=
  [("number_of_reviews", VStr (number_of_reviews soup));
   ("bestseller", VBool (bestseller soup));
   ("stock_status", VStr (stock_status soup))].

(** *** Lines 93-145 *)

(** The dict of lines 136-143; [star_rating] is a [str] or [None]. *)
Record Review := {
  star_rating : option string;
  review_text : string;
  review_date : string;
  reviewer : string;
  verified_purchase : bool;
  helpful_votes : string
}.

(** [a or b] on values that are a [str] or [None]. *)
Definition py_or (a b : option string) : option string :=
  match a with
  | Some s => if truthy s then a else b
  | None => b
  end.

(** [container.find('img', alt=lambda alt: alt and 'star' in alt.lower())] *)
Definition img_alt_star (tag : PageElement) : bool :=
  match name_of tag with
  | Some n => String.eqb n "img"
  | None => false
  end
  && match get "alt" tag with
     | Some alt => truthy alt && contains "star" (lower alt)
     | None => false
     end.

(** [tag.has_attr('class') and any(x in tag['class'][0].lower() for x in
    words)]: [tag['class'][0]] raises on an empty token list. *)
Definition first_class_has (words : list string) (tag : PageElement)
  : Exc bool :=
  match get_class tag with
  | None => Return false
  | Some [] => Raise IndexError
  | Some (c :: _) => Return (existsb (fun x => contains x (lower c)) words)
  end.

Fixpoint helpful_votes_loop (strings : list string) : string :=
  match strings with
  | [] => "N/A"
  | s :: rest =>
      if contains "found this helpful" (lower s) then
        match re_search_digits s with
        | Some m => m
        | None => helpful_votes_loop rest
        end
      else helpful_votes_loop rest
  end.

(** The loop body, lines 100-143. *)
Definition review_of (container : PageElement) : Exc Review :=
  let rating_tag :=
    match find_tag (attr_has "aria-label" "star") container with
    | Some t => Some t
    | None => find_tag img_alt_star container
    end in
  let star_rating :=
    match rating_tag with
    | Some t => py_or (get "aria-label" t) (get "alt" t)
    | None => Some "N/A"
    end in
  let review_text := get_text " " true container in
  date_tag <- find_raising (first_class_has ["date"])
                           (descendants container) ;;
  let review_date :=
    match date_tag with
    | Some t => get_text EmptyString true t
    | None => "N/A"
    end in
  reviewer_tag <- find_raising (first_class_has ["author"; "name"; "location"])
                               (descendants container) ;;
  let reviewer :=
    match reviewer_tag with
    | Some t => get_text EmptyString true t
    | None => "N/A"
    end in
  let verified :=
    existsb (fun s => contains "verified purchase" (lower s))
            (stripped_strings container) in
  let helpful_votes := helpful_votes_loop (stripped_strings container) in
  Return {| star_rating := star_rating;
            review_text := review_text;
            review_date := review_date;
            reviewer := reviewer;
            verified_purchase := verified;
            helpful_votes := helpful_votes |}.

Fixpoint extract_reviews_loop (review_containers : list PageElement)
  : Exc (list Review) :=
  match review_containers with
  | [] => Return []
  | container :: rest =>
      r <- review_of container ;;
      reviews_data <- extract_reviews_loop rest ;;
      Return (r :: reviews_data)
  end.

Definition review_containers (soup : PageElement) : list PageElement :=
  find_all (class_has "review") soup.

Definition extract_reviews (soup : PageElement) : Exc (list Review) :=
  extract_reviews_loop (review_containers soup).

(** *** Lines 149-176 *)

Definition format_opt (v : option string) : string :=
  match v with Some s => s | None => "None" end.

(** The f-string of line 171. *)
Definition snippet (r : Review) : string :=
  format_opt (star_rating r) ++ " | " ++ slice_to 100 (review_text r)
  ++ " | " ++ review_date r
  ++ " | Verified: " ++ str_of_bool (verified_purchase r)
  ++ " | Helpful: " ++ helpful_votes r.

Definition flatten_reviews (reviews_summary : list string) : string :=
  match reviews_summary with
  | [] => "N/A"
  | _ => join " || " reviews_summary
  end.

(** [scrape_product], from the parsed page on: [soup] is the tree of
    [driver.page_source]. *)
Definition scrape_product (order : SetOrder) (url : string)
    (soup : PageElement) : Exc dict :=
  let product_info :=
    [("url", VStr url);
     ("name", VStr (extract_name soup));
     ("price", VStr (extract_price soup));
     ("type", VStr "Foundation");
     ("shades", VList (extract_shades order soup));
     ("image", VStr (extract_image soup));
     ("ingredients", VStr (extract_ingredients soup))] in
  let sales_proxies := extract_sales_proxies soup in
  reviews <- extract_reviews soup ;;
  let reviews_summary := map snippet reviews in
  let product_info := update product_info sales_proxies in
  let product_info :=
    setitem product_info "reviews" (VStr (flatten_reviews reviews_summary)) in
  Return product_info.

End WebScraper.

(** ** Documents used in the examples *)

Module Docs.
Import Py Bs4.

Definition text (s : string) : PageElement := Text NavigableString s.

Definition elem (name : string) (contents : list PageElement) : PageElement :=
  Tag name None [] contents.

(** [<div>4.8 stars (1,234 Reviews)</div>] *)
Definition rating_summary : PageElement :=
  BeautifulSoup [elem "div" [text "4.8 stars (1,234 Reviews)"]].

(** [<span>USD 25</span>] *)
Definition usd_span : PageElement := elem "span" [text "USD 25"].

Definition usd_price : PageElement := BeautifulSoup [usd_span].

(** [<h1>Velvet Matte Foundation</h1>] *)
Definition velvet_heading : PageElement :=
  elem "h1" [text "Velvet Matte Foundation"].

Definition velvet_h1 : PageElement := BeautifulSoup [velvet_heading].

(** [<h1>SPF</h1>] *)
Definition spf_h1 : PageElement :=
  BeautifulSoup [elem "h1" [text "SPF"]].

(** [<h1>SPF</h1><h3>Velvet Matte Foundation</h3>] *)
Definition velvet_h3 : PageElement :=
  BeautifulSoup [elem "h1" [text "SPF"];
                 elem "h3" [text "Velvet Matte Foundation"]].

(** [<img src="/assets/product-123.jpg">] *)
Definition product_img : PageElement :=
  BeautifulSoup [Tag "img" None [("src", "/assets/product-123.jpg")] []].

(** [<img src="/assets/banner.jpg">] *)
Definition banner_img : PageElement :=
  BeautifulSoup [Tag "img" None [("src", "/assets/banner.jpg")] []].

(** [<p>Temporarily Out Of <b>Stock</b></p>] *)
Definition out_of_stock_page : PageElement :=
  BeautifulSoup [elem "p" [text " Temporarily Out Of "; elem "b" [text "Stock"]]].

(** [<ul class="shade-list"><li>Ivory</li><li>Ivory</li><li>Sand</li></ul>] *)
Definition shade_list : PageElement :=
  BeautifulSoup
    [Tag "ul" (Some ["shade-list"]) []
         [elem "li" [text "Ivory"]; elem "li" [text "Ivory"];
          elem "li" [text "Sand"]]].

(** [<div class="product"><h2>Fit Me Matte</h2><p>In stores now</p></div>] *)
Definition plain_page : PageElement :=
  BeautifulSoup
    [Tag "div" (Some ["product"]) []
         [elem "h2" [text "Fit Me Matte"]; elem "p" [text "In stores now"]]].

(** [<div class="review-item">Great product! Verified Purchase. 12 people
    found this helpful.</div>] *)
Definition review_item : PageElement :=
  BeautifulSoup
    [Tag "div" (Some ["review-item"]) []
         [text "Great product! Verified Purchase. 12 people found this helpful."]].

(** A review container holding a paragraph whose class attribute is
    present and empty. *)
Definition empty_class_review : PageElement :=
  BeautifulSoup
    [Tag "div" (Some ["review"]) [] [Tag "p" (Some []) [] [text "Nice"]]].

End Docs.

(** The scalar fields of the record [scrape_product] returns. *)
Definition scalar_fields : list string :=
  ["name"; "price"; "type"; "image"; "ingredients"; "number_of_reviews";
   "stock_status"].

Definition headings : list string := ["h1"; "h2"; "h3"; "h4"; "h5"; "h6"].

Definition lower_headings : list string := ["h3"; "h4"; "h5"; "h6"].

(** ** Character tests over a whole string *)

Module Chars.
Import Py.

Fixpoint all_chars (p : ascii -> bool) (s : string) : bool :=
  match s with
  | EmptyString => true
  | String c s' => p c && all_chars p s'
  end.

Fixpoint some_char (p : ascii -> bool) (s : string) : bool :=
  match s with
  | EmptyString => false
  | String c s' => p c || some_char p s'
  end.

(** A string with a character that is not white space. *)
Definition has_ink (s : string) : bool :=
  some_char (fun c => negb (isspace c)) s.

(** A scan with [first_class_has words] meets a tag whose class list is
    empty before any tag on which the test answers true. *)
Definition hits_empty_class (words : list string)
    (l : list Bs4.PageElement) : Prop :=
  exists pre d post,
    l = (pre ++ d :: post)%list
    /\ Forall (fun e => Bs4.is_tag e = true ->
                        WebScraper.first_class_has words e = Return false) pre
    /\ Bs4.is_tag d = true
    /\ Bs4.get_class d = Some [].

End Chars.

(** ** The runner, lines 180-208 *)

Module Runner.
Import Py Bs4 WebScraper.

(** What the [except Exception] of line 204 can catch: an exception of
    the extractors, a failure of the browser, a failure of the write. *)
Inductive exception :=
| Builtin (e : exn)
| WebDriverException (msg : string)
| OSError (msg : string).

Inductive outcome (A : Type) : Type :=
| Ok (a : A)
| Failed (e : exception).
Arguments Ok {A} a.
Arguments Failed {A} e.

(** The collaborators of one run.  [page i url] is what the [i]-th
    iteration gets from [driver.get(url)] and the parse of
    [driver.page_source]; [to_csv i rows] is the outcome of building the
    DataFrame and writing it in that iteration. *)
Record World := {
  page : nat -> string -> outcome PageElement;
  to_csv : nat -> list dict -> outcome unit
}.

(** What a run prints and writes, in order. *)
Inductive event :=
| Scraping (url : string)
| Written (path : string) (rows : list dict)
| Saved (n : nat) (path : string)
| Error (url : string) (e : exception)
| Quit
| Complete.

(** [os.path.join] with the POSIX separator. *)
Definition os_path_join (a b : string) : string := a ++ "/" ++ b.

Definition output_file : string := "maybelline_products_with_reviews.csv".

Definition output_path : string := os_path_join "output" output_file.

(** [scrape_product(driver, url)] *)
Definition scrape (order : SetOrder) (w : World) (i : nat) (url : string)
  : outcome dict :=
  match page w i url with
  | Failed e => Failed e
  | Ok soup =>
      match scrape_product order url soup with
      | Return product_info => Ok product_info
      | Raise e => Failed (Builtin e)
      end
  end.

(** The body of the loop, lines 195-205. *)
Definition iteration (order : SetOrder) (w : World) (i : nat) (url : string)
    (results : list dict) : list dict * list event :=
  match scrape order w i url with
  | Failed e => (results, [Scraping url; Error url e])
  | Ok data =>
      let results := (results ++ [data])%list in
      match to_csv w i results with
      | Failed e => (results, [Scraping url; Error url e])
      | Ok _ =>
          (results,
           [Scraping url; Written output_path results;
            Saved (List.length results) output_path])
      end
  end.

Fixpoint loop (order : SetOrder) (w : World) (i : nat)
    (product_urls : list string) (results : list dict)
  : list dict * list event :=
  match product_urls with
  | [] => (results, [])
  | url :: rest =>
      let (results1, out1) := iteration order w i url results in
      let (results2, out2) := loop order w (S i) rest results1 in
      (results2, (out1 ++ out2)%list)
  end.

(** Lines 189-208, for a given list of URLs. *)
Definition main (order : SetOrder) (w : World) (product_urls : list string)
  : list dict * list event :=
  let (results, out) := loop order w 0 product_urls [] in
  (results, (out ++ [Quit; Complete])%list).

(** The records of the URLs whose scrape returned, in the order of the
    URLs. *)
Fixpoint scraped (order : SetOrder) (w : World) (i : nat)
    (product_urls : list string) : list dict :=
  match product_urls with
  | [] => []
  | url :: rest =>
      match scrape order w i url with
      | Ok data => data :: scraped order w (S i) rest
      | Failed _ => scraped order w (S i) rest
      end
  end.

(** The URLs a trace announces. *)
Definition announced (out : list event) : list string :=
  flat_map (fun e => match e with Scraping url => [url] | _ => [] end) out.

(** The files a trace writes. *)
Definition written (out : list event) : list (string * list dict) :=
  flat_map (fun e => match e with
                     | Written path rows => [(path, rows)]
                     | _ => []
                     end) out.

(** A world in which the second page cannot be fetched and every write
    succeeds. *)
Definition flaky_world : World :=
  {| page := fun i url =>
               if (i =? 1)%nat then Failed (WebDriverException "timeout")
               else Ok Docs.plain_page;
     to_csv := fun _ _ => Ok tt |}.

End Runner.

(** Pages for the examples of the further properties. *)
Module MoreDocs.
Import Py Bs4 Docs.

(** [<p>Based on 1,234 reviews</p>] *)
Definition review_count : PageElement :=
  BeautifulSoup [elem "p" [text "Based on 1,234 reviews"]].

(** [<p>Ingre<b>dient</b>s: water</p>] *)
Definition split_ingredients_p : PageElement :=
  elem "p" [text "Ingre"; elem "b" [text "dient"]; text "s: water"].

Definition split_ingredients : PageElement :=
  BeautifulSoup [split_ingredients_p].

(** [<p>Our <b>Bestseller</b></p>] *)
Definition bestseller_page : PageElement :=
  BeautifulSoup [elem "p" [text "Our "; elem "b" [text "Bestseller"]]].

(** A review whose rating is an image: [<div class="review"><img
    alt="5 stars" aria-label="rating"><span class="date">May 2</span>
    Verified Purchase</div>] *)
Definition rated_review_div : PageElement :=
  Tag "div" (Some ["review"]) []
      [Tag "img" None [("alt", "5 stars"); ("aria-label", "rating")] [];
       Tag "span" (Some ["date"]) [] [text "May 2"];
       text " Verified Purchase "].

Definition rated_review : PageElement := BeautifulSoup [rated_review_div].

(** The paragraph with an empty class list of [Docs.empty_class_review]. *)
Definition empty_class_p : PageElement :=
  Tag "p" (Some []) [] [text "Nice"].

Definition empty_class_div : PageElement :=
  Tag "div" (Some ["review"]) [] [empty_class_p].

(** [<div class="shades"><ul><li>Ivory</li><li>Sand</li></ul></div>] *)
Definition nested_shades_ul : PageElement :=
  elem "ul" [elem "li" [text "Ivory"]; elem "li" [text "Sand"]].

Definition nested_shades_div : PageElement :=
  Tag "div" (Some ["shades"]) [] [nested_shades_ul].

Definition nested_shades : PageElement := BeautifulSoup [nested_shades_div].

End MoreDocs.

(** ** Facts about the string operations *)

Module PyFacts.
Import Py.

Lemma prefix_app (p s : string) :
  prefix p s = true <-> exists b, s = p ++ b.
Proof.
  revert s; induction p as [|c p IH]; intros s; simpl.
  - split; [intros _; now exists s | intros _; now destruct s].
  - destruct s as [|d s]; simpl.
    + split; [discriminate | intros [b Hb]; discriminate].
    + destruct (ascii_dec c d) as [->|Hcd].
      * rewrite IH. split; intros [b Hb]; exists b.
        -- now rewrite Hb.
        -- now injection Hb.
      * split; [discriminate|].
        intros [b Hb]. injection Hb as Hd _. now subst.
Qed.

Lemma contains_Substring (sub s : string) :
  contains sub s = true <-> Substring sub s.
Proof.
  unfold Substring. induction s as [|c s IH]; cbn [contains].
  - rewrite orb_false_r, prefix_app. split.
    + intros [b Hb]. now exists EmptyString, b.
    + intros [a [b Hab]]. destruct a; [now exists b | discriminate].
  - rewrite orb_true_iff, prefix_app, IH. split.
    + intros [[b Hb] | [a [b Hab]]].
      * now exists EmptyString, b.
      * exists (String c a), b. simpl. now rewrite Hab.
    + intros [a [b Hab]]. destruct a as [|d a]; simpl in Hab.
      * left. now exists b.
      * right. exists a, b. now injection Hab.
Qed.

Lemma contains_empty (sub : string) :
  contains sub EmptyString = true -> sub = EmptyString.
Proof.
  destruct sub; [reflexivity | discriminate].
Qed.

Lemma contains_nonempty (sub s : string) :
  sub <> EmptyString -> contains sub s = true -> s <> EmptyString.
Proof.
  intros Hsub H ->. now apply contains_empty in H.
Qed.

Lemma lower_app (a b : string) : lower (a ++ b) = lower a ++ lower b.
Proof.
  induction a as [|c a IH]; simpl; [reflexivity | now rewrite IH].
Qed.

Lemma lower_Substring (sub s : string) :
  Substring sub s -> Substring (lower sub) (lower s).
Proof.
  intros [a [b ->]]. exists (lower a), (lower b).
  now rewrite !lower_app.
Qed.

Lemma append_assoc (a b c : string) : (a ++ b) ++ c = a ++ b ++ c.
Proof.
  induction a as [|x a IH]; simpl; [reflexivity | now rewrite IH].
Qed.

Lemma Substring_trans (a b c : string) :
  Substring a b -> Substring b c -> Substring a c.
Proof.
  intros [a1 [a2 ->]] [b1 [b2 ->]].
  exists (b1 ++ a1), (a2 ++ b2).
  now rewrite !append_assoc.
Qed.

Lemma findall_from_head (inside : bool) (s : string) :
  Forall (fun m => exists c m', m = String c m' /\ isdigit c = true)
         (findall_from inside s).
Proof.
  revert inside; induction s as [|c s IH]; intros inside; simpl.
  - constructor.
  - destruct inside; [apply IH|].
    destruct (isdigit c) eqn:Hc; [|apply IH].
    constructor; [|apply IH]. now exists c, (take_while digit_or_comma s).
Qed.

Lemma replace_comma_head (c : ascii) (m : string) :
  isdigit c = true ->
  replace ","%char EmptyString (String c m) <> EmptyString.
Proof.
  intros Hc. simpl.
  destruct (Ascii.eqb c ","%char) eqn:E; [|discriminate].
  apply Ascii.eqb_eq in E. subst c. discriminate.
Qed.

Lemma join_head_nonempty (sep x : string) (l : list string) :
  x <> EmptyString -> join sep (x :: l) <> EmptyString.
Proof.
  intros Hx. unfold join. simpl. destruct l; [exact Hx|].
  destruct x; [contradiction | discriminate].
Qed.

End PyFacts.

(** ** The extractors that scan a list of tags *)

Module ScanFacts.
Import Py Bs4 WebScraper PyFacts.

Lemma extract_name_loop_none (tags : list PageElement) :
  Forall (fun h => String.length (get_text EmptyString true h) <= 4) tags ->
  extract_name_loop tags = "N/A".
Proof.
  induction 1 as [|h tags Hh _ IH]; simpl; [reflexivity|].
  apply Nat.ltb_ge in Hh. now rewrite Hh.
Qed.

Lemma extract_name_loop_first (pre post : list PageElement) (t : PageElement) :
  Forall (fun h => String.length (get_text EmptyString true h) <= 4) pre ->
  4 < String.length (get_text EmptyString true t) ->
  extract_name_loop (pre ++ t :: post) = get_text EmptyString true t.
Proof.
  intros Hpre Ht. induction Hpre as [|h pre Hh _ IH]; simpl.
  - apply Nat.ltb_lt in Ht. now rewrite Ht.
  - apply Nat.ltb_ge in Hh. now rewrite Hh.
Qed.

Lemma extract_name_loop_nonempty (tags : list PageElement) :
  extract_name_loop tags <> EmptyString.
Proof.
  induction tags as [|h tags IH]; simpl; [discriminate|].
  destruct (4 <? String.length (get_text EmptyString true h))%nat eqn:E;
    [|exact IH].
  apply Nat.ltb_lt in E. intros H0. rewrite H0 in E. simpl in E. lia.
Qed.

(** The test of line 19 on the lower-cased stripped text. *)
Lemma currency_test (txt : string) :
  contains "$" txt || contains "usd" txt = true
  <-> Substring "$" txt \/ Substring "usd" txt.
Proof.
  now rewrite orb_true_iff, !contains_Substring.
Qed.

Lemma extract_price_loop_none (tags : list PageElement) :
  Forall (fun e => ~ (Substring "$" (lower (get_text EmptyString true e))
                      \/ Substring "usd" (lower (get_text EmptyString true e))))
         tags ->
  extract_price_loop tags = "N/A".
Proof.
  induction 1 as [|e tags He _ IH]; simpl; [reflexivity|].
  rewrite <- currency_test in He.
  apply not_true_is_false in He. now rewrite He.
Qed.

Lemma extract_price_loop_first (pre post : list PageElement) (t : PageElement) :
  Forall (fun e => ~ (Substring "$" (lower (get_text EmptyString true e))
                      \/ Substring "usd" (lower (get_text EmptyString true e))))
         pre ->
  Substring "$" (lower (get_text EmptyString true t))
  \/ Substring "usd" (lower (get_text EmptyString true t)) ->
  extract_price_loop (pre ++ t :: post) = lower (get_text EmptyString true t).
Proof.
  intros Hpre Ht. induction Hpre as [|e pre He _ IH]; simpl.
  - rewrite <- currency_test in Ht. now rewrite Ht.
  - rewrite <- currency_test in He.
    apply not_true_is_false in He. now rewrite He.
Qed.

Lemma extract_price_loop_nonempty (tags : list PageElement) :
  extract_price_loop tags <> EmptyString.
Proof.
  induction tags as [|e tags IH]; simpl; [discriminate|].
  destruct (contains "$" (lower (get_text EmptyString true e))
            || contains "usd" (lower (get_text EmptyString true e))) eqn:E;
    [|exact IH].
  apply orb_true_iff in E.
  destruct E as [E|E];
    [apply (contains_nonempty "$") | apply (contains_nonempty "usd")];
    solve [discriminate | exact E].
Qed.

Lemma select_match (names : list string) (soup t : PageElement) :
  In t (select names soup) ->
  In t (descendants soup) /\ match_tagname names t = true.
Proof.
  unfold select. now rewrite filter_In.
Qed.

End ScanFacts.

(** ** Facts about the tree operations *)

Module Bs4Facts.
Import Py Bs4 WebScraper PyFacts.

Lemma yield_string_nonempty (types : list StringClass) (el : PageElement) :
  Forall (fun s => s <> EmptyString) (yield_string true types el).
Proof.
  destruct el as [c s|n cls attrs cs]; simpl; [|constructor].
  destruct (of_types types c); [|constructor].
  destruct (String.length (strip s) =? 0)%nat eqn:E; constructor;
    [|constructor].
  intros H0. rewrite H0 in E. discriminate.
Qed.

Lemma all_strings_nonempty (el : PageElement) :
  Forall (fun s => s <> EmptyString) (all_strings true el).
Proof.
  destruct el as [c s|n cls attrs cs]; unfold all_strings.
  - destruct (of_types [NavigableString; CData] c); [|constructor].
    destruct (0 <? String.length (strip s))%nat eqn:E; constructor;
      [|constructor].
    intros H0. rewrite H0 in E. discriminate.
  - apply Forall_flat_map, Forall_forall. intros d _.
    apply yield_string_nonempty.
Qed.

(** A tag whose joined stripped text is not empty has a non-empty text
    under any separator. *)
Lemma get_text_nonempty (sep : string) (el : PageElement) :
  get_text EmptyString true el <> EmptyString ->
  get_text sep true el <> EmptyString.
Proof.
  unfold get_text. pose proof (all_strings_nonempty el) as Hall.
  destruct (all_strings true el) as [|x l]; [intros H; exact H|].
  intros _. apply join_head_nonempty. now inversion Hall.
Qed.

Lemma find_first {A} (f : A -> bool) (pre post : list A) (x : A) :
  Forall (fun e => f e = false) pre -> f x = true ->
  find f (pre ++ x :: post) = Some x.
Proof.
  intros Hpre Hx. induction Hpre as [|e pre He _ IH]; simpl.
  - now rewrite Hx.
  - now rewrite He.
Qed.

Lemma find_all_false {A} (f : A -> bool) (l : list A) :
  Forall (fun e => f e = false) l -> find f l = None.
Proof.
  induction 1 as [|e l He _ IH]; simpl; [reflexivity | now rewrite He].
Qed.

Lemma filter_all_false {A} (f : A -> bool) (l : list A) :
  (forall e, In e l -> f e = false) -> filter f l = [].
Proof.
  induction l as [|e l IH]; intros H; simpl; [reflexivity|].
  rewrite (H e (or_introl eq_refl)). apply IH.
  intros e' He'. apply H. now right.
Qed.

(** With lower-cased attribute names soupsieve's attribute lookup is the
    dict lookup. *)
Lemma match_attribute_name_lookup (attrs : list (string * string)) :
  forallb (fun kv => String.eqb (sv_lower (fst kv)) (fst kv)) attrs = true ->
  match_attribute_name "src" attrs = lookup "src" attrs.
Proof.
  induction attrs as [|[k v] attrs IH];
    cbn [match_attribute_name lookup forallb fst]; [reflexivity|].
  intros H. apply andb_true_iff in H. destruct H as [Hk Hrest].
  apply String.eqb_eq in Hk. change (sv_lower "src") with "src".
  rewrite Hk, (String.eqb_sym "src" k).
  destruct (String.eqb k "src"); [reflexivity | now apply IH].
Qed.

Lemma extract_image_nonempty (soup : PageElement) :
  from_html_parser soup -> extract_image soup <> EmptyString.
Proof.
  intros Hwf. unfold extract_image, select_one_attr_contains.
  destruct (find _ (descendants soup)) as [t|] eqn:Hfind; simpl;
    [|discriminate].
  apply find_some in Hfind. destruct Hfind as [Hin Hm].
  unfold from_html_parser in Hwf. rewrite Forall_forall in Hwf.
  specialize (Hwf _ Hin).
  destruct t as [c s|n cls attrs cs]; [discriminate|].
  unfold match_attr_contains in Hm. apply andb_true_iff in Hm.
  destruct Hm as [_ Hm]. simpl in Hwf.
  rewrite (match_attribute_name_lookup _ Hwf) in Hm.
  unfold getitem, get.
  destruct (lookup "src" attrs) as [v|]; simpl; [|discriminate].
  apply (contains_nonempty "product"); [discriminate | exact Hm].
Qed.

Lemma extract_ingredients_loop_nonempty (tags : list PageElement) :
  extract_ingredients_loop tags <> EmptyString.
Proof.
  induction tags as [|e tags IH]; simpl; [discriminate|].
  destruct (contains "ingredient" (lower (get_text EmptyString true e)))
    eqn:E; [|exact IH].
  apply get_text_nonempty. intros H0. rewrite H0 in E. discriminate.
Qed.

Lemma num_reviews_loop_nonempty (texts : list string) :
  num_reviews_loop texts <> EmptyString.
Proof.
  induction texts as [|text texts IH]; simpl; [discriminate|].
  pose proof (findall_from_head false text) as Hhead.
  unfold re_findall_count.
  destruct (findall_from false text) as [|m0 ms]; [exact IH|].
  inversion Hhead as [|? ? [c [m' [-> Hc]]] _].
  now apply replace_comma_head.
Qed.

Lemma stock_loop_values (text : string) (phrases : list string) :
  stock_loop text phrases = "Out of stock"
  \/ stock_loop text phrases = "In stock".
Proof.
  induction phrases as [|p phrases IH]; simpl; [now right|].
  destruct (contains p text); [now left | exact IH].
Qed.

Lemma stock_loop_out (text : string) (phrases : list string) :
  stock_loop text phrases = "Out of stock"
  <-> exists p, In p phrases /\ Substring p text.
Proof.
  induction phrases as [|p phrases IH]; simpl.
  - split; [discriminate | intros [p [[] _]]].
  - destruct (contains p text) eqn:E.
    + split; [|reflexivity]. intros _. exists p. split; [now left|].
      now apply contains_Substring.
    + rewrite IH. split; intros [q [Hq Hsub]]; exists q.
      * split; [now right | exact Hsub].
      * split; [|exact Hsub]. destruct Hq as [<-|Hq]; [|exact Hq].
        apply contains_Substring in Hsub. congruence.
Qed.

(** Membership in the result of [extract_shades], whatever the order in
    which the set is iterated. *)
Lemma extract_shades_In (order : SetOrder) (soup : PageElement) (x : string) :
  In x (extract_shades order soup)
  <-> (In x (shade_candidates soup) /\ strip x <> EmptyString)
      \/ (x = "N/A"
          /\ forall y, In y (shade_candidates soup) -> strip y = EmptyString).
Proof.
  unfold extract_shades.
  assert (Hfilter : forall y,
    In y (filter (fun x => negb (String.eqb (strip x) EmptyString))
                 (order (shade_candidates soup)))
    <-> In y (shade_candidates soup) /\ strip y <> EmptyString).
  { intros y. rewrite filter_In, set_iter_In, negb_true_iff.
    now rewrite String.eqb_neq. }
  destruct (filter _ (order (shade_candidates soup))) as [|a l] eqn:E.
  - split.
    + intros [<-|[]]. right. split; [reflexivity|].
      intros y Hy. destruct (string_dec (strip y) EmptyString) as [H0|H0];
        [exact H0|].
      exfalso. apply (proj2 (Hfilter y)). now split.
    + intros [[Hx Hs]|[-> _]]; [|now left].
      exfalso. apply (proj2 (Hfilter x)). now split.
  - rewrite Hfilter. split; [now left|].
    intros [H|[_ Hall]]; [exact H|].
    exfalso. destruct (proj1 (Hfilter a) (or_introl eq_refl)) as [Ha Hs].
    now apply Hs, Hall.
Qed.

Lemma extract_shades_NoDup (order : SetOrder) (soup : PageElement) :
  NoDup (extract_shades order soup).
Proof.
  unfold extract_shades.
  pose proof (NoDup_filter (fun x => negb (String.eqb (strip x) EmptyString))
                (set_iter_NoDup order (shade_candidates soup))) as Hnd.
  destruct (filter _ (order (shade_candidates soup))); [|exact Hnd].
  constructor; [intros [] | constructor].
Qed.

Lemma find_raising_returns (f : PageElement -> Exc bool)
    (l : list PageElement) :
  (forall d, In d l -> exists b, f d = Return b) ->
  exists r, find_raising f l = Return r.
Proof.
  induction l as [|d l IH]; intros H; simpl; [now exists None|].
  assert (IH' : exists r, find_raising f l = Return r).
  { apply IH. intros d' Hd'. apply H. now right. }
  destruct (is_tag d); [|exact IH'].
  destruct (H d (or_introl eq_refl)) as [b Hb]. rewrite Hb. simpl.
  destruct b; [now exists (Some d) | exact IH'].
Qed.

Lemma first_class_has_returns (words : list string) (el : PageElement) :
  get_class el <> Some [] -> exists b, first_class_has words el = Return b.
Proof.
  unfold first_class_has. destruct (get_class el) as [[|c cs]|]; intros H.
  - now contradiction H.
  - now eexists.
  - now eexists.
Qed.

Lemma review_of_returns (container : PageElement) :
  (forall d, In d (descendants container) -> get_class d <> Some []) ->
  exists r, review_of container = Return r.
Proof.
  intros H. unfold review_of.
  destruct (find_raising_returns (first_class_has ["date"])
              (descendants container)) as [r1 H1].
  { intros d Hd. now apply first_class_has_returns, H. }
  destruct (find_raising_returns
              (first_class_has ["author"; "name"; "location"])
              (descendants container)) as [r2 H2].
  { intros d Hd. now apply first_class_has_returns, H. }
  rewrite H1. simpl. rewrite H2. simpl. now eexists.
Qed.

Lemma extract_reviews_loop_returns (containers : list PageElement) :
  (forall c, In c containers ->
             forall d, In d (descendants c) -> get_class d <> Some []) ->
  exists rs, extract_reviews_loop containers = Return rs.
Proof.
  induction containers as [|c cs IH]; intros H; simpl; [now eexists|].
  destruct (review_of_returns c (H c (or_introl eq_refl))) as [r Hr].
  destruct IH as [rs Hrs].
  { intros c' Hc'. apply H. now right. }
  rewrite Hr. simpl. rewrite Hrs. simpl. now eexists.
Qed.

End Bs4Facts.

(** ** The model on sample pages *)

Module Examples.
Import Py Bs4 WebScraper.

Example review_item_record :
  extract_reviews Docs.review_item
  = Return
      [{| star_rating := Some "N/A";
          review_text :=
            "Great product! Verified Purchase. 12 people found this helpful.";
          review_date := "N/A";
          reviewer := "N/A";
          verified_purchase := true;
          helpful_votes := "12" |}].
Proof. reflexivity. Qed.

Example review_item_flattened :
  exists d,
    scrape_product insertion_order "https://shop.test/fit-me" Docs.review_item
      = Return d
    /\ dict_get "reviews" d
       = Some (VStr ("N/A | Great product! Verified Purchase. 12 people found"
                     ++ " this helpful. | N/A | Verified: True | Helpful: 12")).
Proof. eexists. split; reflexivity. Qed.

(** An empty class list below a review container: line 113 raises. *)
Example empty_class_raises :
  extract_reviews Docs.empty_class_review = Raise IndexError
  /\ scrape_product insertion_order "https://shop.test/fit-me"
                    Docs.empty_class_review = Raise IndexError.
Proof. split; reflexivity. Qed.

Example shade_list_shades :
  extract_shades insertion_order Docs.shade_list = ["Ivory"; "Sand"].
Proof. reflexivity. Qed.

Example findall_runs :
  re_findall_count "12,,3x,4 and 1,234" = ["12,,3"; "4"; "1,234"].
Proof. reflexivity. Qed.

Example strip_whitespace :
  strip (String (ascii_of_N 9) "  Ivory Beige "
         ++ String (ascii_of_N 10) EmptyString)
  = "Ivory Beige".
Proof. reflexivity. Qed.

End Examples.

(** ** The claims *)

Module Claims.
Import Py Bs4 WebScraper PyFacts ScanFacts Bs4Facts.

(** C1.  On a page whose only text is [4.8 stars (1,234 Reviews)] the text
    node passes the filter of line 64, the pattern of line 68 finds the
    matches [4], [8] and [1,234] in it, and [number_of_reviews] is the first
    of them, the string [4], not [1234]. *)
Theorem number_of_reviews_rating_summary :
  find_all_string review_count_text Docs.rating_summary
    = ["4.8 stars (1,234 Reviews)"]
  /\ re_findall_count "4.8 stars (1,234 Reviews)" = ["4"; "8"; "1,234"]
  /\ number_of_reviews Docs.rating_summary = "4"
  /\ dict_get "number_of_reviews" (extract_sales_proxies Docs.rating_summary)
     = Some (VStr "4")
  /\ number_of_reviews Docs.rating_summary <> "1234".
Proof.
  repeat split; try reflexivity. discriminate.
Qed.

(** C2, as stated, fails: on [<span>USD 25</span>] the span is the first
    span or div whose lower-cased stripped text contains [usd], and the
    price returned is [usd 25], which is neither the stripped text
    [USD 25] of that element nor its text as it stands. *)
Lemma extract_price_not_raw_text :
  select ["span"; "div"] Docs.usd_price = [Docs.usd_span]
  /\ Substring "usd" (lower (get_text EmptyString true Docs.usd_span))
  /\ get_text EmptyString true Docs.usd_span = "USD 25"
  /\ get_text EmptyString false Docs.usd_span = "USD 25"
  /\ extract_price Docs.usd_price = "usd 25"
  /\ extract_price Docs.usd_price <> get_text EmptyString true Docs.usd_span
  /\ extract_price Docs.usd_price <> get_text EmptyString false Docs.usd_span.
Proof.
  repeat split; try reflexivity; try discriminate.
  apply contains_Substring. reflexivity.
Qed.

(** C2, amended.  The price is the lower-cased stripped text of the first
    span or div, in document order, whose lower-cased stripped text
    contains [$] or [usd], with nothing else done to it; it is [N/A] when
    no span or div qualifies. *)
Theorem extract_price_lowered_text :
  (forall soup pre t post,
      select ["span"; "div"] soup = (pre ++ t :: post)%list ->
      Forall (fun e =>
                ~ (Substring "$" (lower (get_text EmptyString true e))
                   \/ Substring "usd" (lower (get_text EmptyString true e))))
             pre ->
      Substring "$" (lower (get_text EmptyString true t))
      \/ Substring "usd" (lower (get_text EmptyString true t)) ->
      extract_price soup = lower (get_text EmptyString true t))
  /\ (forall soup,
         Forall (fun e =>
                   ~ (Substring "$" (lower (get_text EmptyString true e))
                      \/ Substring "usd" (lower (get_text EmptyString true e))))
                (select ["span"; "div"] soup) ->
         extract_price soup = "N/A").
Proof.
  split.
  - intros soup pre t post Hsel Hpre Ht. unfold extract_price.
    rewrite Hsel. now apply extract_price_loop_first.
  - intros soup Hall. unfold extract_price.
    now apply extract_price_loop_none.
Qed.

Lemma extract_price_lowered_text_witness :
  extract_price Docs.usd_price = lower (get_text EmptyString true Docs.usd_span)
  /\ extract_price Docs.velvet_h1 = "N/A".
Proof.
  split.
  - apply (proj1 extract_price_lowered_text Docs.usd_price [] Docs.usd_span []).
    + reflexivity.
    + constructor.
    + right. apply contains_Substring. reflexivity.
  - apply (proj2 extract_price_lowered_text Docs.velvet_h1).
    simpl. constructor.
Defined.

(** C7.  The name is the stripped text of the first h1 or h2, in document
    order, whose stripped text is longer than 4 characters, and [N/A] when
    no h1 or h2 qualifies; [<h1>Velvet Matte Foundation</h1>] gives
    [Velvet Matte Foundation] and [<h1>SPF</h1>] alone gives [N/A]. *)
Theorem extract_name_first_long_heading :
  (forall soup pre t post,
      select ["h1"; "h2"] soup = (pre ++ t :: post)%list ->
      Forall (fun h => String.length (get_text EmptyString true h) <= 4) pre ->
      4 < String.length (get_text EmptyString true t) ->
      extract_name soup = get_text EmptyString true t)
  /\ (forall soup,
         Forall (fun h => String.length (get_text EmptyString true h) <= 4)
                (select ["h1"; "h2"] soup) ->
         extract_name soup = "N/A")
  /\ extract_name Docs.velvet_h1 = "Velvet Matte Foundation"
  /\ extract_name Docs.spf_h1 = "N/A".
Proof.
  repeat split; try reflexivity.
  - intros soup pre t post Hsel Hpre Ht. unfold extract_name.
    rewrite Hsel. now apply extract_name_loop_first.
  - intros soup Hall. unfold extract_name.
    now apply extract_name_loop_none.
Qed.

Lemma extract_name_first_long_heading_witness :
  extract_name Docs.velvet_h1 = get_text EmptyString true Docs.velvet_heading
  /\ extract_name Docs.spf_h1 = "N/A".
Proof.
  split.
  - apply (proj1 extract_name_first_long_heading
                 Docs.velvet_h1 [] Docs.velvet_heading []).
    + reflexivity.
    + constructor.
    + simpl. lia.
  - apply (proj1 (proj2 extract_name_first_long_heading) Docs.spf_h1).
    simpl. repeat constructor.
Defined.

(** C10.  Only h1 and h2 are looked at: when every heading (h1 to h6) whose
    stripped text is longer than 4 characters is an h3, h4, h5 or h6, the
    name is [N/A]. *)
Theorem extract_name_ignores_lower_headings (soup : PageElement) :
  (forall t, In t (descendants soup) ->
             match_tagname headings t = true ->
             4 < String.length (get_text EmptyString true t) ->
             match_tagname lower_headings t = true) ->
  extract_name soup = "N/A".
Proof.
  intros H. unfold extract_name. apply extract_name_loop_none.
  apply Forall_forall. intros t Ht.
  apply select_match in Ht. destruct Ht as [Hin Hm].
  destruct (le_lt_dec (String.length (get_text EmptyString true t)) 4)
    as [Hle|Hlt]; [exact Hle|].
  exfalso.
  destruct t as [c s|n cls attrs cs]; [discriminate|].
  simpl in Hm. rewrite !orb_true_iff in Hm.
  assert (Hhead : match_tagname headings (Tag n cls attrs cs) = true).
  { simpl. destruct Hm as [Hm|[Hm|Hm]]; [| |discriminate];
      apply String.eqb_eq in Hm; now rewrite Hm. }
  specialize (H _ Hin Hhead Hlt). simpl in H.
  destruct Hm as [Hm|[Hm|Hm]]; [| |discriminate];
    apply String.eqb_eq in Hm; rewrite Hm in H; discriminate.
Qed.

Lemma extract_name_ignores_lower_headings_witness :
  extract_name Docs.velvet_h3 = "N/A".
Proof.
  apply (extract_name_ignores_lower_headings Docs.velvet_h3).
  intros t Hin Hhead Hlen. simpl in Hin.
  destruct Hin as [<-|[<-|[<-|[<-|[]]]]];
    first [reflexivity | discriminate | (simpl in Hlen; lia)].
Defined.

(** C3.  On a tree built by html.parser, every scalar field of the record
    [scrape_product] returns (name, price, type, image, ingredients,
    number_of_reviews, stock_status) is present and holds a string that is
    not empty: an extracted value or the sentinel [N/A].  The record is
    returned whenever no tag inside a review container carries an empty
    class list. *)
Theorem scrape_product_scalar_fields (order : SetOrder) (url : string)
    (soup : PageElement) :
  from_html_parser soup ->
  (forall d, scrape_product order url soup = Return d ->
             Forall (fun k => exists s, dict_get k d = Some (VStr s)
                                        /\ s <> EmptyString)
                    scalar_fields)
  /\ ((forall c, In c (review_containers soup) ->
                 forall t, In t (descendants c) -> get_class t <> Some []) ->
      exists d, scrape_product order url soup = Return d).
Proof.
  intros Hwf. split.
  - intros d Hd. unfold scrape_product in Hd.
    destruct (extract_reviews soup) as [reviews|e]; simpl in Hd;
      [|discriminate].
    injection Hd as <-. unfold scalar_fields.
    repeat (apply Forall_cons; [eexists; split; [reflexivity|] |]);
      [ apply extract_name_loop_nonempty
      | apply extract_price_loop_nonempty
      | discriminate
      | now apply extract_image_nonempty
      | apply extract_ingredients_loop_nonempty
      | apply num_reviews_loop_nonempty
      | | apply Forall_nil ].
    destruct (stock_loop_values (page_text soup) stock_out_indicators)
      as [H|H]; unfold stock_status; rewrite H; discriminate.
  - intros Hcls. unfold scrape_product, extract_reviews.
    destruct (extract_reviews_loop_returns _ Hcls) as [rs Hrs].
    rewrite Hrs. simpl. now eexists.
Qed.

Lemma scrape_product_scalar_fields_witness :
  exists d,
    scrape_product insertion_order "https://shop.test/fit-me" Docs.plain_page
      = Return d
    /\ Forall (fun k => exists s, dict_get k d = Some (VStr s)
                                  /\ s <> EmptyString)
              scalar_fields.
Proof.
  eexists. split; [reflexivity|].
  apply (proj1 (scrape_product_scalar_fields
                  insertion_order "https://shop.test/fit-me" Docs.plain_page
                  ltac:(repeat constructor))).
  reflexivity.
Defined.

(** C4.  The shade list is never empty and has no duplicates.  When no
    harvested string survives the filter of line 56 it is the one-element
    list [N/A]; otherwise its members are exactly the harvested strings
    that survive the filter. *)
Theorem extract_shades_never_empty (order : SetOrder) (soup : PageElement) :
  extract_shades order soup <> []
  /\ NoDup (extract_shades order soup)
  /\ ((forall x, In x (shade_candidates soup) -> strip x = EmptyString) ->
      extract_shades order soup = ["N/A"])
  /\ ((exists x, In x (shade_candidates soup) /\ strip x <> EmptyString) ->
      forall x, In x (extract_shades order soup)
                <-> In x (shade_candidates soup) /\ strip x <> EmptyString).
Proof.
  split; [|split; [|split]].
  - unfold extract_shades. destruct (filter _ _); discriminate.
  - apply extract_shades_NoDup.
  - intros Hall. unfold extract_shades.
    rewrite filter_all_false; [reflexivity|].
    intros e He. apply set_iter_In in He.
    now rewrite (Hall e He).
  - intros [y [Hy Hs]] x. rewrite extract_shades_In. split.
    + intros [Hx|[_ Hall]]; [exact Hx|].
      now contradiction Hs; apply Hall.
    + intros Hx. now left.
Qed.

Lemma extract_shades_never_empty_witness :
  extract_shades insertion_order Docs.plain_page = ["N/A"]
  /\ (In "Sand" (extract_shades insertion_order Docs.shade_list)
      <-> In "Sand" (shade_candidates Docs.shade_list)
          /\ strip "Sand" <> EmptyString).
Proof.
  split.
  - apply (proj1 (proj2 (proj2 (extract_shades_never_empty
                                  insertion_order Docs.plain_page)))).
    intros x Hx. simpl in Hx. contradiction.
  - apply (proj2 (proj2 (proj2 (extract_shades_never_empty
                                  insertion_order Docs.shade_list)))).
    exists "Ivory". split; [simpl; tauto | discriminate].
Defined.

(** C5.  When no element of the document has a class token containing
    [review], [extract_reviews] returns the empty list and
    [scrape_product] returns a record whose [reviews] field is [N/A]. *)
Theorem no_review_containers (order : SetOrder) (url : string)
    (soup : PageElement) :
  (forall t, In t (descendants soup) -> class_has "review" t = false) ->
  extract_reviews soup = Return []
  /\ exists d, scrape_product order url soup = Return d
               /\ dict_get "reviews" d = Some (VStr "N/A").
Proof.
  intros Hnone.
  assert (Hrev : extract_reviews soup = Return []).
  { unfold extract_reviews, review_containers, find_all.
    rewrite filter_all_false; [reflexivity|].
    intros e He. rewrite (Hnone e He). apply andb_false_r. }
  split; [exact Hrev|].
  unfold scrape_product. rewrite Hrev. simpl.
  eexists. split; reflexivity.
Qed.

Lemma no_review_containers_witness :
  extract_reviews Docs.plain_page = Return []
  /\ exists d,
       scrape_product insertion_order "https://shop.test/fit-me"
                      Docs.plain_page = Return d
       /\ dict_get "reviews" d = Some (VStr "N/A").
Proof.
  apply (no_review_containers insertion_order "https://shop.test/fit-me"
                              Docs.plain_page).
  intros t Ht. simpl in Ht.
  repeat (destruct Ht as [<-|Ht]; [reflexivity|]). contradiction.
Defined.

(** C6.  [stock_status] is [Out of stock] exactly when the lower-cased
    page text, the stripped strings joined by single spaces, contains
    [out of stock], [sold out] or [unavailable], and [In stock] otherwise;
    a page whose text contains [Temporarily Out Of Stock] in any casing is
    out of stock. *)
Theorem stock_status_out_iff (soup : PageElement) :
  (stock_status soup = "Out of stock"
   <-> Substring "out of stock" (page_text soup)
       \/ Substring "sold out" (page_text soup)
       \/ Substring "unavailable" (page_text soup))
  /\ (stock_status soup <> "Out of stock" -> stock_status soup = "In stock")
  /\ (forall phrase,
         lower phrase = "temporarily out of stock" ->
         Substring phrase (join " " (stripped_strings soup)) ->
         stock_status soup = "Out of stock").
Proof.
  assert (Hiff : stock_status soup = "Out of stock"
                 <-> Substring "out of stock" (page_text soup)
                     \/ Substring "sold out" (page_text soup)
                     \/ Substring "unavailable" (page_text soup)).
  { unfold stock_status. rewrite stock_loop_out. unfold stock_out_indicators.
    split.
    - intros [p [[<-|[<-|[<-|[]]]] Hsub]]; tauto.
    - intros [H|[H|H]]; eexists; (split; [|exact H]); simpl; tauto. }
  split; [exact Hiff|]. split.
  - intros Hne.
    destruct (stock_loop_values (page_text soup) stock_out_indicators)
      as [H|H]; [contradiction | exact H].
  - intros phrase Hlow Hsub. apply Hiff. left.
    apply (Substring_trans _ (lower phrase)).
    + rewrite Hlow. now exists "temporarily ", EmptyString.
    + now apply lower_Substring.
Qed.

Lemma stock_status_out_iff_witness :
  stock_status Docs.out_of_stock_page = "Out of stock"
  /\ stock_status Docs.plain_page = "In stock".
Proof.
  split.
  - apply (proj2 (proj2 (stock_status_out_iff Docs.out_of_stock_page))
                 "Temporarily Out Of Stock").
    + reflexivity.
    + now exists EmptyString, EmptyString.
  - apply (proj1 (proj2 (stock_status_out_iff Docs.plain_page))).
    discriminate.
Defined.

(** C8.  [extract_image] returns the [src] value of the first element, in
    document order, that matches the selector of line 25, an img whose src
    contains [product]; it returns [N/A] when no element matches and when
    the matched element has no [src] item, and in every case it returns a
    string: nothing is raised. *)
Theorem extract_image_first_product_src :
  (forall soup pre img post v,
      descendants soup = (pre ++ img :: post)%list ->
      Forall (fun e => match_attr_contains "img" "src" "product" e = false)
             pre ->
      match_attr_contains "img" "src" "product" img = true ->
      get "src" img = Some v ->
      extract_image soup = v)
  /\ (forall soup,
         Forall (fun e => match_attr_contains "img" "src" "product" e = false)
                (descendants soup) ->
         extract_image soup = "N/A")
  /\ (forall soup pre img post,
         descendants soup = (pre ++ img :: post)%list ->
         Forall (fun e => match_attr_contains "img" "src" "product" e = false)
                pre ->
         match_attr_contains "img" "src" "product" img = true ->
         get "src" img = None ->
         extract_image soup = "N/A")
  /\ (forall soup,
         from_html_parser soup -> extract_image soup <> "N/A" ->
         exists img, In img (descendants soup)
                     /\ match_tagname ["img"] img = true
                     /\ get "src" img = Some (extract_image soup)
                     /\ Substring "product" (extract_image soup))
  /\ extract_image Docs.product_img = "/assets/product-123.jpg"
  /\ extract_image Docs.banner_img = "N/A".
Proof.
  repeat split; try reflexivity.
  - intros soup pre img post v Hd Hpre Himg Hsrc.
    unfold extract_image, select_one_attr_contains.
    rewrite Hd, (find_first _ _ _ _ Hpre Himg). simpl.
    unfold getitem. now rewrite Hsrc.
  - intros soup Hall. unfold extract_image, select_one_attr_contains.
    now rewrite (find_all_false _ _ Hall).
  - intros soup pre img post Hd Hpre Himg Hsrc.
    unfold extract_image, select_one_attr_contains.
    rewrite Hd, (find_first _ _ _ _ Hpre Himg). simpl.
    unfold getitem. now rewrite Hsrc.
  - intros soup Hwf Hne. revert Hne.
    unfold extract_image, select_one_attr_contains.
    destruct (find _ (descendants soup)) as [t|] eqn:Hfind; simpl;
      [|intros Hne; now contradiction Hne].
    apply find_some in Hfind. destruct Hfind as [Hin Hm].
    unfold from_html_parser in Hwf. rewrite Forall_forall in Hwf.
    specialize (Hwf _ Hin).
    destruct t as [c s|n cls attrs cs]; [discriminate|].
    unfold match_attr_contains in Hm. apply andb_true_iff in Hm.
    destruct Hm as [Hname Hm]. simpl in Hwf.
    rewrite (match_attribute_name_lookup _ Hwf) in Hm.
    unfold getitem, get.
    destruct (lookup "src" attrs) as [v|] eqn:Hv; simpl;
      [|intros Hne; now contradiction Hne].
    intros _. exists (Tag n cls attrs cs).
    repeat split; try assumption. now apply contains_Substring.
Qed.

Lemma extract_image_first_product_src_witness :
  extract_image Docs.product_img = "/assets/product-123.jpg"
  /\ extract_image Docs.banner_img = "N/A"
  /\ extract_image
       (BeautifulSoup [Tag "img" None [("SRC", "/product.png")] []]) = "N/A".
Proof.
  split; [|split].
  - apply (proj1 extract_image_first_product_src Docs.product_img []
             (Tag "img" None [("src", "/assets/product-123.jpg")] []) []);
      first [reflexivity | constructor].
  - apply (proj1 (proj2 extract_image_first_product_src) Docs.banner_img).
    simpl. repeat constructor.
  - apply (proj1 (proj2 (proj2 extract_image_first_product_src))
             (BeautifulSoup [Tag "img" None [("SRC", "/product.png")] []]) []
             (Tag "img" None [("SRC", "/product.png")] []) []);
      first [reflexivity | constructor].
Defined.

(** C9.  Two runs of [extract_shades] on the same document, each with its
    own iteration order of the set, return the same strings: the two
    lists have the same members and are permutations of each other. *)
Theorem extract_shades_same_set (run1 run2 : SetOrder) (soup : PageElement) :
  (forall x, In x (extract_shades run1 soup)
             <-> In x (extract_shades run2 soup))
  /\ Permutation (extract_shades run1 soup) (extract_shades run2 soup).
Proof.
  assert (Hsame : forall x, In x (extract_shades run1 soup)
                            <-> In x (extract_shades run2 soup)).
  { intros x. now rewrite !extract_shades_In. }
  split; [exact Hsame|].
  apply NoDup_Permutation; auto using extract_shades_NoDup.
Qed.

End Claims.

(** ** Further facts about strings *)

Module CharFacts.
Import Py Chars PyFacts.

Lemma length_append (a b : string) :
  String.length (a ++ b) = String.length a + String.length b.
Proof.
  induction a as [|c a IH]; simpl; [reflexivity | now rewrite IH].
Qed.

Lemma lower_length (s : string) : String.length (lower s) = String.length s.
Proof.
  induction s as [|c s IH]; simpl; [reflexivity | now rewrite IH].
Qed.

Lemma Substring_length (sub s : string) :
  Substring sub s -> String.length sub <= String.length s.
Proof.
  intros [a [b ->]]. rewrite !length_append. lia.
Qed.

Lemma join_cons (sep x : string) (l : list string) :
  l <> [] -> join sep (x :: l) = x ++ sep ++ join sep l.
Proof.
  destruct l; [intros H; now contradiction H | reflexivity].
Qed.

Lemma join_length_sep (sep : string) (l : list string) :
  String.length (join EmptyString l) <= String.length (join sep l).
Proof.
  induction l as [|x l IH]; [apply Nat.le_refl|].
  destruct l as [|y l]; [apply Nat.le_refl|].
  rewrite (join_cons EmptyString), (join_cons sep) by discriminate.
  rewrite !length_append.
  change (String.length EmptyString) with 0. lia.
Qed.

Lemma append_empty_r (a : string) : a ++ EmptyString = a.
Proof.
  induction a as [|c a IH]; simpl; [reflexivity | now rewrite IH].
Qed.

Lemma In_join_Substring (sep s : string) (l : list string) :
  In s l -> Substring s (join sep l).
Proof.
  induction l as [|x l IH]; [intros []|].
  intros Hin. destruct l as [|y l].
  - destruct Hin as [->|[]]. exists EmptyString, EmptyString.
    simpl. now rewrite append_empty_r.
  - rewrite join_cons by discriminate. destruct Hin as [->|Hin].
    + now exists EmptyString, (sep ++ join sep (y :: l)).
    + destruct (IH Hin) as [a [b Hab]]. exists (x ++ sep ++ a), b.
      rewrite Hab, !append_assoc. reflexivity.
Qed.

Lemma lower_char_not_N (c : ascii) : lower_char c <> "N"%char.
Proof.
  destruct c as [[] [] [] [] [] [] [] []]; vm_compute; discriminate.
Qed.

Lemma lower_char_idem (c : ascii) : lower_char (lower_char c) = lower_char c.
Proof.
  destruct c as [[] [] [] [] [] [] [] []]; vm_compute; reflexivity.
Qed.

Lemma lower_idem (s : string) : lower (lower s) = lower s.
Proof.
  induction s as [|c s IH]; simpl; [reflexivity|].
  now rewrite lower_char_idem, IH.
Qed.

Lemma lower_not_sentinel (s : string) : lower s <> "N/A".
Proof.
  destruct s as [|c s]; simpl; [discriminate|].
  intros H. injection H as Hc _. now apply lower_char_not_N in Hc.
Qed.

Lemma all_chars_take_while (p : ascii -> bool) (s : string) :
  all_chars p (take_while p s) = true.
Proof.
  induction s as [|c s IH]; simpl; [reflexivity|].
  destruct (p c) eqn:E; simpl; [now rewrite E | reflexivity].
Qed.

(** A maximal run: [run] is in the class and what follows is not. *)
Lemma take_while_run (p : ascii -> bool) (run rest : string) :
  all_chars p run = true ->
  (rest = EmptyString
   \/ exists c rest', rest = String c rest' /\ p c = false) ->
  take_while p (run ++ rest) = run.
Proof.
  intros Hrun Hrest. induction run as [|c run IH]; simpl in *.
  - destruct Hrest as [->|[c [rest' [-> Hc]]]]; simpl;
      [reflexivity | now rewrite Hc].
  - apply andb_true_iff in Hrun. destruct Hrun as [Hc Hrun].
    now rewrite Hc, IH.
Qed.

Lemma findall_no_digit (s : string) :
  findall_from false s = [] <-> some_char isdigit s = false.
Proof.
  induction s as [|c s IH]; simpl; [tauto|].
  destruct (isdigit c); simpl; [split; discriminate | exact IH].
Qed.

Lemma findall_skip (pre s : string) :
  some_char isdigit pre = false ->
  findall_from false (pre ++ s) = findall_from false s.
Proof.
  induction pre as [|c pre IH]; simpl; [reflexivity|].
  intros H. apply orb_false_iff in H. destruct H as [Hc Hpre].
  rewrite Hc. now apply IH.
Qed.

(** The matches of the pattern of line 68 are made of digits and commas
    and begin with a digit. *)
Lemma findall_from_shape (inside : bool) (s : string) :
  Forall (fun m => exists c m', m = String c m' /\ isdigit c = true
                                /\ all_chars digit_or_comma m' = true)
         (findall_from inside s).
Proof.
  revert inside; induction s as [|c s IH]; intros inside; simpl.
  - constructor.
  - destruct inside; [apply IH|].
    destruct (isdigit c) eqn:Hc; [|apply IH].
    constructor; [|apply IH].
    exists c, (take_while digit_or_comma s).
    repeat split; [exact Hc | apply all_chars_take_while].
Qed.

Lemma replace_comma_digits (m : string) :
  all_chars digit_or_comma m = true ->
  all_chars isdigit (replace ","%char EmptyString m) = true.
Proof.
  induction m as [|c m IH]; simpl; [reflexivity|].
  intros H. apply andb_true_iff in H. destruct H as [Hc Hm].
  destruct (Ascii.eqb c ","%char) eqn:E; simpl; [now apply IH|].
  unfold digit_or_comma in Hc. rewrite E, orb_false_r in Hc.
  now rewrite Hc, IH.
Qed.

Lemma digits_not_sentinel (s : string) :
  all_chars isdigit s = true -> s <> "N/A".
Proof.
  intros H ->. discriminate.
Qed.

Lemma re_search_digits_shape (s m : string) :
  re_search_digits s = Some m ->
  m <> EmptyString /\ all_chars isdigit m = true.
Proof.
  induction s as [|c s IH]; simpl; [discriminate|].
  destruct (isdigit c) eqn:Hc; [|exact IH].
  intros H. injection H as <-. split; [discriminate|].
  simpl. now rewrite Hc, all_chars_take_while.
Qed.

(** White space and [strip]. *)
Lemma has_ink_app (a b : string) :
  has_ink (a ++ b) = has_ink a || has_ink b.
Proof.
  unfold has_ink. induction a as [|c a IH]; simpl; [reflexivity|].
  now rewrite IH, orb_assoc.
Qed.

Lemma has_ink_lstrip (s : string) : has_ink (lstrip s) = has_ink s.
Proof.
  unfold has_ink. induction s as [|c s IH]; simpl; [reflexivity|].
  destruct (isspace c) eqn:E; simpl; [exact IH | now rewrite E].
Qed.

Lemma rstrip_empty_iff (s : string) :
  rstrip s = EmptyString <-> has_ink s = false.
Proof.
  unfold has_ink. induction s as [|c s IH]; simpl; [tauto|].
  destruct (rstrip s) as [|d r] eqn:Hr.
  - destruct (isspace c); simpl.
    + split; [intros _; now apply IH | reflexivity].
    + split; discriminate.
  - split; [discriminate|]. intros H.
    apply orb_false_iff in H. destruct H as [_ H].
    apply IH in H. discriminate.
Qed.

Lemma has_ink_rstrip (s : string) : has_ink (rstrip s) = has_ink s.
Proof.
  induction s as [|c s IH]; [reflexivity|].
  pose proof (rstrip_empty_iff s) as Hempty.
  unfold has_ink in *. simpl.
  destruct (rstrip s) as [|d r] eqn:Hr.
  - rewrite (proj1 Hempty eq_refl).
    destruct (isspace c) eqn:E; simpl; [reflexivity | now rewrite E].
  - rewrite <- IH. reflexivity.
Qed.

Lemma strip_nonempty_iff (s : string) :
  strip s <> EmptyString <-> has_ink s = true.
Proof.
  unfold strip. rewrite rstrip_empty_iff, has_ink_lstrip.
  destruct (has_ink s); split; congruence.
Qed.

Lemma strip_has_ink (s : string) :
  strip s <> EmptyString -> has_ink (strip s) = true.
Proof.
  intros H. apply strip_nonempty_iff in H.
  unfold strip. now rewrite has_ink_rstrip, has_ink_lstrip.
Qed.

End CharFacts.

(** ** Further facts about the extractors *)

Module ExtractFacts.
Import Py Bs4 WebScraper Chars PyFacts ScanFacts Bs4Facts CharFacts.

Lemma extract_name_loop_sound (tags : list PageElement) :
  extract_name_loop tags <> "N/A" ->
  exists t, In t tags
            /\ 4 < String.length (get_text EmptyString true t)
            /\ extract_name_loop tags = get_text EmptyString true t.
Proof.
  induction tags as [|h tags IH]; simpl; [intros H; now contradiction H|].
  destruct (4 <? String.length (get_text EmptyString true h))%nat eqn:E.
  - intros _. exists h. apply Nat.ltb_lt in E. auto.
  - intros H. destruct (IH H) as [t [Ht [Hlen Heq]]]. exists t. auto.
Qed.

Lemma extract_name_loop_sentinel (tags : list PageElement) :
  extract_name_loop tags = "N/A" ->
  Forall (fun h => String.length (get_text EmptyString true h) <= 4) tags.
Proof.
  induction tags as [|h tags IH]; simpl; [constructor|].
  destruct (4 <? String.length (get_text EmptyString true h))%nat eqn:E.
  - intros H. rewrite H in E. discriminate.
  - intros H. apply Nat.ltb_ge in E. constructor; auto.
Qed.

Lemma extract_price_loop_sentinel (tags : list PageElement) :
  extract_price_loop tags = "N/A" ->
  Forall (fun e => ~ (Substring "$" (lower (get_text EmptyString true e))
                      \/ Substring "usd" (lower (get_text EmptyString true e))))
         tags.
Proof.
  induction tags as [|e tags IH]; simpl; [constructor|].
  destruct (contains "$" (lower (get_text EmptyString true e))
            || contains "usd" (lower (get_text EmptyString true e))) eqn:E.
  - intros H. now apply lower_not_sentinel in H.
  - intros H. constructor; [|now apply IH].
    rewrite <- currency_test. congruence.
Qed.

Lemma extract_price_loop_lowered (tags : list PageElement) :
  extract_price_loop tags = "N/A"
  \/ lower (extract_price_loop tags) = extract_price_loop tags.
Proof.
  induction tags as [|e tags IH]; simpl; [now left|].
  destruct (contains "$" (lower (get_text EmptyString true e))
            || contains "usd" (lower (get_text EmptyString true e)));
    [right; apply lower_idem | exact IH].
Qed.

Lemma extract_ingredients_loop_none (tags : list PageElement) :
  Forall (fun e => ~ Substring "ingredient"
                               (lower (get_text EmptyString true e))) tags ->
  extract_ingredients_loop tags = "N/A".
Proof.
  induction 1 as [|e tags He _ IH]; simpl; [reflexivity|].
  rewrite <- contains_Substring in He.
  apply not_true_is_false in He. now rewrite He.
Qed.

Lemma extract_ingredients_loop_first (pre post : list PageElement)
    (t : PageElement) :
  Forall (fun e => ~ Substring "ingredient"
                               (lower (get_text EmptyString true e))) pre ->
  Substring "ingredient" (lower (get_text EmptyString true t)) ->
  extract_ingredients_loop (pre ++ t :: post) = get_text " " true t.
Proof.
  intros Hpre Ht. induction Hpre as [|e pre He _ IH]; simpl.
  - apply contains_Substring in Ht. now rewrite Ht.
  - rewrite <- contains_Substring in He.
    apply not_true_is_false in He. now rewrite He.
Qed.

Lemma extract_ingredients_loop_sentinel (tags : list PageElement) :
  extract_ingredients_loop tags = "N/A" ->
  Forall (fun e => ~ Substring "ingredient"
                               (lower (get_text EmptyString true e))) tags.
Proof.
  induction tags as [|e tags IH]; simpl; [constructor|].
  destruct (contains "ingredient" (lower (get_text EmptyString true e)))
    eqn:E.
  - intros H. exfalso.
    apply contains_Substring, Substring_length in E.
    rewrite lower_length in E.
    pose proof (join_length_sep " " (all_strings true e)) as Hlen.
    unfold get_text in *. rewrite H in Hlen. simpl in E, Hlen. lia.
  - intros H. constructor; [|now apply IH].
    rewrite <- contains_Substring. congruence.
Qed.

Lemma first_match_digits (text m0 : string) (ms : list string) :
  findall_from false text = m0 :: ms ->
  replace ","%char EmptyString m0 <> EmptyString
  /\ all_chars isdigit (replace ","%char EmptyString m0) = true.
Proof.
  intros Hfind. pose proof (findall_from_shape false text) as Hshape.
  rewrite Hfind in Hshape.
  inversion Hshape as [|? ? [c [m' [-> [Hc Hm']]]] _].
  split; [now apply replace_comma_head|].
  apply replace_comma_digits. simpl. rewrite Hm', andb_true_r.
  unfold digit_or_comma. now rewrite Hc.
Qed.

Lemma num_reviews_loop_digits (texts : list string) :
  num_reviews_loop texts = "N/A"
  \/ (num_reviews_loop texts <> EmptyString
      /\ all_chars isdigit (num_reviews_loop texts) = true).
Proof.
  induction texts as [|text texts IH]; simpl; [now left|].
  unfold re_findall_count.
  destruct (findall_from false text) as [|m0 ms] eqn:Hfind; [exact IH|].
  right. exact (first_match_digits _ _ _ Hfind).
Qed.

Lemma num_reviews_loop_sentinel (texts : list string) :
  num_reviews_loop texts = "N/A"
  <-> Forall (fun text => some_char isdigit text = false) texts.
Proof.
  induction texts as [|text texts IH]; simpl; [split; auto|].
  pose proof (findall_no_digit text) as Hnone.
  unfold re_findall_count.
  destruct (findall_from false text) as [|m0 ms] eqn:Hfind.
  - rewrite IH. split.
    + intros H. constructor; [now apply Hnone | exact H].
    + intros H. now inversion H.
  - split.
    + intros H. exfalso.
      destruct (first_match_digits _ _ _ Hfind) as [_ Hd].
      now apply digits_not_sentinel in Hd.
    + intros H. inversion H as [|? ? Hno _]. apply Hnone in Hno.
      discriminate.
Qed.

Lemma num_reviews_loop_skip (skipped later : list string) (text : string) :
  Forall (fun t => some_char isdigit t = false) skipped ->
  num_reviews_loop (skipped ++ text :: later)
  = num_reviews_loop (text :: later).
Proof.
  induction 1 as [|t skipped Ht _ IH]; [reflexivity|].
  cbn [app num_reviews_loop]. unfold re_findall_count.
  apply findall_no_digit in Ht. now rewrite Ht.
Qed.

Lemma truthy_iff (s : string) : truthy s = true <-> s <> EmptyString.
Proof.
  destruct s; simpl; split; congruence.
Qed.

Lemma attr_has_value (key word : string) (t : PageElement) :
  word <> EmptyString -> attr_has key word t = true ->
  exists v, get key t = Some v /\ v <> EmptyString.
Proof.
  unfold attr_has. intros Hw H.
  destruct (get key t) as [v|]; [|discriminate].
  exists v. split; [reflexivity|]. intros ->.
  now apply contains_empty in H.
Qed.

(** The rating of a review is never [None] and never empty. *)
Lemma rating_nonempty (rating_tag : option PageElement) :
  (forall t, rating_tag = Some t ->
             (exists v, get "aria-label" t = Some v /\ v <> EmptyString)
             \/ (exists a, get "alt" t = Some a /\ a <> EmptyString)) ->
  exists s,
    match rating_tag with
    | Some t => py_or (get "aria-label" t) (get "alt" t)
    | None => Some "N/A"
    end = Some s /\ s <> EmptyString.
Proof.
  intros H. destruct rating_tag as [t|]; [|now exists "N/A"].
  destruct (H t eq_refl) as [[v [Hv Hne]]|[a [Ha Hne]]].
  - exists v. rewrite Hv. unfold py_or.
    apply truthy_iff in Hne. now rewrite Hne, truthy_iff in *.
  - rewrite Ha. unfold py_or.
    destruct (get "aria-label" t) as [v|]; [|now exists a].
    destruct (truthy v) eqn:E; [|now exists a].
    exists v. now rewrite <- truthy_iff.
Qed.

Lemma helpful_votes_loop_digits (strings : list string) :
  helpful_votes_loop strings = "N/A"
  \/ (helpful_votes_loop strings <> EmptyString
      /\ all_chars isdigit (helpful_votes_loop strings) = true).
Proof.
  induction strings as [|x strings IH]; simpl; [now left|].
  destruct (contains "found this helpful" (lower x)); [|exact IH].
  destruct (re_search_digits x) as [m|] eqn:E; [|exact IH].
  right. now apply re_search_digits_shape in E.
Qed.

Lemma find_raising_raise (words : list string) (l : list PageElement)
    (e : exn) :
  find_raising (first_class_has words) l = Raise e
  <-> e = IndexError /\ hits_empty_class words l.
Proof.
  unfold hits_empty_class. induction l as [|d l IH]; simpl.
  - split; [discriminate|].
    intros [_ [pre [x [post [H _]]]]]. now destruct pre.
  - destruct (is_tag d) eqn:Htag.
    + unfold first_class_has at 1.
      destruct (get_class d) as [[|c cs]|] eqn:Hcls; simpl.
      * split.
        -- intros H. injection H as <-. split; [reflexivity|].
           exists [], d, l. repeat split; auto.
        -- intros [-> _]. reflexivity.
      * destruct (existsb (fun x => contains x (lower c)) words) eqn:Hb.
        -- split; [discriminate|].
           intros [_ [pre [x [post [Hl [Hpre [Hx Hxc]]]]]]].
           destruct pre as [|p pre]; simpl in Hl; injection Hl as <- Hl.
           ++ congruence.
           ++ inversion Hpre as [|? ? Hp _]. specialize (Hp Htag).
              unfold first_class_has in Hp. rewrite Hcls, Hb in Hp.
              discriminate.
        -- rewrite IH. split.
           ++ intros [-> [pre [x [post [-> [Hpre [Hx Hxc]]]]]]].
              split; [reflexivity|]. exists (d :: pre), x, post.
              repeat split; auto. constructor; [|exact Hpre].
              intros _. unfold first_class_has. now rewrite Hcls, Hb.
           ++ intros [-> [pre [x [post [Hl [Hpre [Hx Hxc]]]]]]].
              split; [reflexivity|].
              destruct pre as [|p pre]; simpl in Hl; injection Hl as <- Hl.
              ** congruence.
              ** exists pre, x, post. inversion Hpre. auto.
      * rewrite IH. split.
        -- intros [-> [pre [x [post [-> [Hpre [Hx Hxc]]]]]]].
           split; [reflexivity|]. exists (d :: pre), x, post.
           repeat split; auto. constructor; [|exact Hpre].
           intros _. unfold first_class_has. now rewrite Hcls.
        -- intros [-> [pre [x [post [Hl [Hpre [Hx Hxc]]]]]]].
           split; [reflexivity|].
           destruct pre as [|p pre]; simpl in Hl; injection Hl as <- Hl.
           ++ congruence.
           ++ exists pre, x, post. inversion Hpre. auto.
    + rewrite IH. split.
      * intros [-> [pre [x [post [-> [Hpre [Hx Hxc]]]]]]].
        split; [reflexivity|]. exists (d :: pre), x, post.
        repeat split; auto. constructor; [|exact Hpre].
        intros H. congruence.
      * intros [-> [pre [x [post [Hl [Hpre [Hx Hxc]]]]]]].
        split; [reflexivity|].
        destruct pre as [|p pre]; simpl in Hl; injection Hl as <- Hl.
        -- congruence.
        -- exists pre, x, post. inversion Hpre. auto.
Qed.

Lemma review_of_raise (container : PageElement) (e : exn) :
  review_of container = Raise e
  <-> e = IndexError
      /\ (hits_empty_class ["date"] (descendants container)
          \/ hits_empty_class ["author"; "name"; "location"]
                              (descendants container)).
Proof.
  unfold review_of.
  pose proof (find_raising_raise ["date"] (descendants container)) as Hd.
  pose proof (find_raising_raise ["author"; "name"; "location"]
                                 (descendants container)) as Hr.
  destruct (find_raising (first_class_has ["date"]) (descendants container))
    as [r1|e1]; simpl.
  - destruct (find_raising (first_class_has ["author"; "name"; "location"])
                           (descendants container)) as [r2|e2]; simpl.
    + split; [discriminate|]. intros [-> [H|H]].
      * pose proof (proj2 (Hd IndexError) (conj eq_refl H)). discriminate.
      * pose proof (proj2 (Hr IndexError) (conj eq_refl H)). discriminate.
    + split.
      * intros H. injection H as <-.
        destruct (proj1 (Hr e2) eq_refl) as [-> H]. auto.
      * intros [-> _]. destruct (proj1 (Hr e2) eq_refl) as [-> _].
        reflexivity.
  - split.
    + intros H. injection H as <-.
      destruct (proj1 (Hd e1) eq_refl) as [-> H]. auto.
    + intros [-> _]. destruct (proj1 (Hd e1) eq_refl) as [-> _].
      reflexivity.
Qed.

Lemma extract_reviews_loop_Forall2 (containers : list PageElement)
    (rs : list Review) :
  extract_reviews_loop containers = Return rs
  <-> Forall2 (fun c r => review_of c = Return r) containers rs.
Proof.
  revert rs. induction containers as [|c cs IH]; intros rs; simpl.
  - split.
    + intros H. injection H as <-. constructor.
    + intros H. now inversion H.
  - destruct (review_of c) as [r|e] eqn:Hc; simpl.
    + destruct (extract_reviews_loop cs) as [rs'|e]; simpl.
      * split.
        -- intros H. injection H as <-. constructor; [exact Hc|].
           now apply IH.
        -- intros H. inversion H as [|? r0 ? rs0 Hr Hrs]; subst.
           rewrite Hc in Hr. injection Hr as <-.
           apply IH in Hrs. now injection Hrs as <-.
      * split; [discriminate|].
        intros H. inversion H as [|? r0 ? rs0 Hr Hrs]; subst.
        apply IH in Hrs. discriminate.
    + split; [discriminate|].
      intros H. inversion H as [|? r0 ? rs0 Hr Hrs]. congruence.
Qed.

Lemma extract_reviews_loop_raise (containers : list PageElement) (e : exn) :
  extract_reviews_loop containers = Raise e
  <-> e = IndexError
      /\ exists c, In c containers /\ review_of c = Raise IndexError.
Proof.
  revert e. induction containers as [|c cs IH]; intros e; simpl.
  - split; [discriminate | intros [_ [c [[] _]]]].
  - destruct (review_of c) as [r|e0] eqn:Hc; simpl.
    + destruct (extract_reviews_loop cs) as [rs'|e1]; simpl.
      * split; [discriminate|]. intros [-> [c' [[<-|Hin] Hc']]].
        -- congruence.
        -- assert (H : Return rs' = Raise IndexError :> Exc (list Review)).
           { apply IH. split; [reflexivity|]. now exists c'. }
           discriminate.
      * destruct (proj1 (IH e1) eq_refl) as [-> [c' [Hin Hc']]]. split.
        -- intros H. injection H as <-.
           split; [reflexivity|]. exists c'. auto.
        -- intros [-> _]. reflexivity.
    + pose proof (proj1 (review_of_raise c e0) Hc) as [-> _]. split.
      * intros H. injection H as <-. split; [reflexivity|].
        exists c. auto.
      * intros [-> _]. reflexivity.
Qed.

Lemma join_head_length (sep x : string) (l : list string) :
  String.length x <= String.length (join sep (x :: l)).
Proof.
  destruct l as [|y l]; [apply Nat.le_refl|].
  rewrite join_cons by discriminate. rewrite length_append. lia.
Qed.

Lemma snippet_length (r : Review) : 31 <= String.length (snippet r).
Proof.
  unfold snippet. rewrite !length_append. simpl. lia.
Qed.

Lemma flatten_reviews_sentinel (rs : list Review) :
  flatten_reviews (map snippet rs) = "N/A" <-> rs = [].
Proof.
  destruct rs as [|r rs]; [simpl; tauto|].
  split; [|discriminate]. intros H. exfalso.
  pose proof (join_head_length " || " (snippet r) (map snippet rs)) as Hlen.
  pose proof (snippet_length r) as Hr.
  unfold flatten_reviews in H. cbn [map] in H.
  rewrite H in Hlen. simpl in Hlen. lia.
Qed.

Lemma slice_to_length (n : nat) (s : string) :
  String.length (slice_to n s) = Nat.min n (String.length s).
Proof.
  unfold slice_to. revert s. induction n as [|n IH]; intros s.
  - now destruct s.
  - destruct s as [|c s]; simpl; [reflexivity | now rewrite IH].
Qed.

Lemma slice_to_prefix (n : nat) (s : string) :
  exists rest, s = slice_to n s ++ rest.
Proof.
  unfold slice_to. revert s. induction n as [|n IH]; intros s.
  - exists s. now destruct s.
  - destruct s as [|c s]; simpl; [now exists EmptyString|].
    destruct (IH s) as [rest Hrest]. exists rest. now rewrite <- Hrest.
Qed.

Lemma slice_to_short (n : nat) (s : string) :
  String.length s <= n -> slice_to n s = s.
Proof.
  unfold slice_to. revert s. induction n as [|n IH]; intros s Hlen.
  - destruct s; [reflexivity | simpl in Hlen; lia].
  - destruct s as [|c s]; simpl; [reflexivity|].
    rewrite IH; [reflexivity | simpl in Hlen; lia].
Qed.

Lemma all_strings_ink (el : PageElement) :
  Forall (fun s => has_ink s = true) (all_strings true el).
Proof.
  destruct el as [c s|n cls attrs cs]; unfold all_strings.
  - destruct (of_types [NavigableString; CData] c); [|constructor].
    destruct (0 <? String.length (strip s))%nat eqn:E; constructor;
      [|constructor].
    apply strip_has_ink. intros H0. rewrite H0 in E. discriminate.
  - apply Forall_flat_map, Forall_forall. intros d _.
    destruct d as [c s|]; simpl; [|constructor].
    destruct (of_types _ c); [|constructor].
    destruct (String.length (strip s) =? 0)%nat eqn:E; constructor;
      [|constructor].
    apply strip_has_ink. intros H0. rewrite H0 in E. discriminate.
Qed.

(** A non-empty stripped text is not blank. *)
Lemma get_text_not_blank (el : PageElement) :
  get_text EmptyString true el <> EmptyString ->
  strip (get_text EmptyString true el) <> EmptyString.
Proof.
  unfold get_text. pose proof (all_strings_ink el) as Hink.
  destruct (all_strings true el) as [|x l]; [intros H; exact H|].
  intros _. apply strip_nonempty_iff.
  inversion Hink as [|? ? Hx _]. destruct l as [|y l]; [exact Hx|].
  rewrite join_cons by discriminate. rewrite has_ink_app, Hx. reflexivity.
Qed.

Lemma shade_candidates_In (soup : PageElement) (x : string) :
  In x (shade_candidates soup)
  <-> exists elem d, In elem (selectors soup) /\ In d (descendants elem)
                     /\ get_text EmptyString true d = x
                     /\ x <> EmptyString.
Proof.
  unfold shade_candidates. rewrite in_flat_map. split.
  - intros [elem [Helem Hx]]. apply in_flat_map in Hx.
    destruct Hx as [d [Hd Hx]]. exists elem, d.
    unfold shade_adds, hasattr_get_text in Hx.
    destruct (truthy (get_text EmptyString true d)) eqn:E; [|destruct Hx].
    destruct Hx as [<-|[]]. apply truthy_iff in E. auto.
  - intros [elem [d [Helem [Hd [Hx Hne]]]]]. exists elem.
    split; [exact Helem|]. apply in_flat_map. exists d.
    split; [exact Hd|]. unfold shade_adds, hasattr_get_text.
    apply truthy_iff in Hne. rewrite Hx, Hne. now left.
Qed.

Lemma filter_all_true {A} (f : A -> bool) (l : list A) :
  (forall x, In x l -> f x = true) -> filter f l = l.
Proof.
  induction l as [|a l IH]; intros H; simpl; [reflexivity|].
  rewrite (H a (or_introl eq_refl)), IH; [reflexivity|].
  intros x Hx. apply H. now right.
Qed.

End ExtractFacts.

(** ** Facts about the runner *)

Module RunnerFacts.
Import Py Bs4 WebScraper Runner.

Lemma iteration_results (order : SetOrder) (w : World) (i : nat)
    (url : string) (results : list dict) :
  fst (iteration order w i url results)
  = (results ++ match scrape order w i url with
                | Ok data => [data]
                | Failed _ => []
                end)%list.
Proof.
  unfold iteration. destruct (scrape order w i url) as [data|e]; simpl.
  - now destruct (to_csv w i (results ++ [data])) as [[]|e].
  - now rewrite app_nil_r.
Qed.

Lemma loop_results (order : SetOrder) (w : World) (urls : list string) :
  forall i results,
    fst (loop order w i urls results)
    = (results ++ scraped order w i urls)%list.
Proof.
  induction urls as [|url rest IH]; intros i results; simpl.
  - now rewrite app_nil_r.
  - pose proof (iteration_results order w i url results) as Hit.
    destruct (iteration order w i url results) as [results1 out1].
    pose proof (IH (S i) results1) as Hrest.
    destruct (loop order w (S i) rest results1) as [results2 out2].
    simpl in *. subst. rewrite <- app_assoc.
    now destruct (scrape order w i url).
Qed.

Lemma iteration_announced (order : SetOrder) (w : World) (i : nat)
    (url : string) (results : list dict) :
  announced (snd (iteration order w i url results)) = [url].
Proof.
  unfold iteration. destruct (scrape order w i url) as [data|e];
    [|reflexivity].
  now destruct (to_csv w i (results ++ [data])) as [[]|e].
Qed.

Lemma loop_announced (order : SetOrder) (w : World) (urls : list string) :
  forall i results, announced (snd (loop order w i urls results)) = urls.
Proof.
  induction urls as [|url rest IH]; intros i results; simpl; [reflexivity|].
  pose proof (iteration_announced order w i url results) as Hit.
  destruct (iteration order w i url results) as [results1 out1].
  pose proof (IH (S i) results1) as Hrest.
  destruct (loop order w (S i) rest results1) as [results2 out2].
  simpl in *. unfold announced in *.
  now rewrite flat_map_app, Hit, Hrest.
Qed.

Lemma iteration_written (order : SetOrder) (w : World) (i : nat)
    (url : string) (results : list dict) :
  Forall (fun pr => fst pr = output_path
                    /\ snd pr = fst (iteration order w i url results)
                    /\ snd pr <> [])
         (written (snd (iteration order w i url results))).
Proof.
  unfold iteration. destruct (scrape order w i url) as [data|e];
    [|constructor].
  destruct (to_csv w i (results ++ [data])) as [[]|e]; simpl;
    [|constructor].
  constructor; [|constructor]. simpl. repeat split.
  now destruct results.
Qed.

Lemma loop_written (order : SetOrder) (w : World) (urls : list string) :
  forall i results,
    Forall (fun pr => fst pr = output_path
                      /\ snd pr <> []
                      /\ exists later,
                           fst (loop order w i urls results)
                           = (snd pr ++ later)%list)
           (written (snd (loop order w i urls results))).
Proof.
  induction urls as [|url rest IH]; intros i results; simpl; [constructor|].
  pose proof (iteration_written order w i url results) as Hit.
  destruct (iteration order w i url results) as [results1 out1].
  pose proof (IH (S i) results1) as Hrest.
  pose proof (loop_results order w rest (S i) results1) as Hres.
  destruct (loop order w (S i) rest results1) as [results2 out2].
  simpl in *. unfold written in *. rewrite flat_map_app.
  apply Forall_app. split; [|exact Hrest].
  revert Hit. apply Forall_impl. intros [path rows] [Hp [Hrows Hne]].
  simpl in *. repeat split; auto.
  exists (scraped order w (S i) rest). now rewrite Hres, Hrows.
Qed.

Lemma main_fst (order : SetOrder) (w : World) (urls : list string) :
  fst (main order w urls) = fst (loop order w 0 urls []).
Proof.
  unfold main. now destruct (loop order w 0 urls []).
Qed.

Lemma main_snd (order : SetOrder) (w : World) (urls : list string) :
  snd (main order w urls)
  = (snd (loop order w 0 urls []) ++ [Quit; Complete])%list.
Proof.
  unfold main. now destruct (loop order w 0 urls []).
Qed.

Example flaky_run :
  map (dict_get "url")
      (fst (main insertion_order flaky_world
                 ["https://shop.test/a"; "https://shop.test/b";
                  "https://shop.test/c"]))
  = [Some (VStr "https://shop.test/a"); Some (VStr "https://shop.test/c")]
  /\ announced (snd (main insertion_order flaky_world
                          ["https://shop.test/a"; "https://shop.test/b";
                           "https://shop.test/c"]))
     = ["https://shop.test/a"; "https://shop.test/b"; "https://shop.test/c"].
Proof. split; reflexivity. Qed.

End RunnerFacts.

(** ** Further properties of the program *)

Module Extras.
Import Py Bs4 WebScraper Chars PyFacts ScanFacts Bs4Facts CharFacts.
Import ExtractFacts Runner RunnerFacts.

(** X1.  [extract_name] answers [N/A] exactly when no h1 or h2 has a
    stripped text longer than 4 characters; any other answer is the
    stripped text of an h1 or h2 that is longer than 4 characters. *)
Theorem extract_name_sentinel_iff (soup : PageElement) :
  (extract_name soup = "N/A"
   <-> Forall (fun h => String.length (get_text EmptyString true h) <= 4)
              (select ["h1"; "h2"] soup))
  /\ (extract_name soup <> "N/A" ->
      exists t, In t (select ["h1"; "h2"] soup)
                /\ 4 < String.length (get_text EmptyString true t)
                /\ extract_name soup = get_text EmptyString true t).
Proof.
  unfold extract_name. split; [split|].
  - apply extract_name_loop_sentinel.
  - apply extract_name_loop_none.
  - apply extract_name_loop_sound.
Qed.

Lemma extract_name_sentinel_iff_witness :
  exists t, In t (select ["h1"; "h2"] Docs.velvet_h1)
            /\ 4 < String.length (get_text EmptyString true t)
            /\ extract_name Docs.velvet_h1 = get_text EmptyString true t.
Proof.
  apply (proj2 (extract_name_sentinel_iff Docs.velvet_h1)).
  discriminate.
Defined.

(** X2.  [extract_price] answers [N/A] exactly when no span or div has a
    lower-cased stripped text containing [$] or [usd]; any other answer is
    already in lower case. *)
Theorem extract_price_sentinel_iff (soup : PageElement) :
  (extract_price soup = "N/A"
   <-> Forall (fun e =>
                 ~ (Substring "$" (lower (get_text EmptyString true e))
                    \/ Substring "usd" (lower (get_text EmptyString true e))))
              (select ["span"; "div"] soup))
  /\ (extract_price soup = "N/A"
      \/ lower (extract_price soup) = extract_price soup).
Proof.
  unfold extract_price. split; [split|].
  - apply extract_price_loop_sentinel.
  - apply extract_price_loop_none.
  - apply extract_price_loop_lowered.
Qed.

(** X3.  [extract_ingredients] returns the stripped strings, joined by
    single spaces, of the first div, section or p whose lower-cased
    stripped text (joined without separator) contains [ingredient], and it
    answers [N/A] exactly when there is no such element. *)
Theorem extract_ingredients_first_match :
  (forall soup pre t post,
      select ["div"; "section"; "p"] soup = (pre ++ t :: post)%list ->
      Forall (fun e => ~ Substring "ingredient"
                                   (lower (get_text EmptyString true e)))
             pre ->
      Substring "ingredient" (lower (get_text EmptyString true t)) ->
      extract_ingredients soup = get_text " " true t)
  /\ (forall soup,
         extract_ingredients soup = "N/A"
         <-> Forall (fun e => ~ Substring "ingredient"
                                          (lower (get_text EmptyString true e)))
                    (select ["div"; "section"; "p"] soup)).
Proof.
  split.
  - intros soup pre t post Hsel Hpre Ht. unfold extract_ingredients.
    rewrite Hsel. now apply extract_ingredients_loop_first.
  - intros soup. unfold extract_ingredients. split.
    + apply extract_ingredients_loop_sentinel.
    + apply extract_ingredients_loop_none.
Qed.

Lemma extract_ingredients_first_match_witness :
  extract_ingredients MoreDocs.split_ingredients = "Ingre dient s: water".
Proof.
  apply (proj1 extract_ingredients_first_match MoreDocs.split_ingredients
               [] MoreDocs.split_ingredients_p []).
  - reflexivity.
  - constructor.
  - apply contains_Substring. reflexivity.
Defined.

(** X4.  On a tree built by html.parser, [extract_image] answers [N/A]
    exactly when no element matches the selector of line 25. *)
Theorem extract_image_sentinel_iff (soup : PageElement) :
  from_html_parser soup ->
  (extract_image soup = "N/A"
   <-> Forall (fun e => match_attr_contains "img" "src" "product" e = false)
              (descendants soup)).
Proof.
  intros Hwf. unfold extract_image, select_one_attr_contains. split.
  - destruct (find _ (descendants soup)) as [t|] eqn:Hfind.
    + intros H. exfalso. apply find_some in Hfind.
      destruct Hfind as [Hin Hm].
      unfold from_html_parser in Hwf. rewrite Forall_forall in Hwf.
      specialize (Hwf _ Hin).
      destruct t as [c s|n cls attrs cs]; [discriminate|].
      unfold match_attr_contains in Hm. apply andb_true_iff in Hm.
      destruct Hm as [_ Hm]. simpl in Hwf.
      rewrite (match_attribute_name_lookup _ Hwf) in Hm.
      simpl in H. unfold getitem, get in H.
      destruct (lookup "src" attrs) as [v|]; [|discriminate].
      simpl in H. subst v. discriminate.
    + intros _. apply Forall_forall. intros e He.
      now apply (find_none _ _ Hfind).
  - intros Hall. now rewrite (find_all_false _ _ Hall).
Qed.

Lemma extract_image_sentinel_iff_witness :
  extract_image Docs.banner_img = "N/A".
Proof.
  apply (extract_image_sentinel_iff Docs.banner_img).
  - repeat constructor.
  - repeat constructor.
Defined.

(** X5.  [number_of_reviews] is [N/A] or a non-empty string of decimal
    digits: no comma and no other character is left in it. *)
Theorem number_of_reviews_digits (soup : PageElement) :
  number_of_reviews soup = "N/A"
  \/ (number_of_reviews soup <> EmptyString
      /\ all_chars isdigit (number_of_reviews soup) = true).
Proof.
  apply num_reviews_loop_digits.
Qed.

(** X6.  [number_of_reviews] is [N/A] exactly when no string node that
    mentions [review] or [rating] contains a digit. *)
Theorem number_of_reviews_sentinel_iff (soup : PageElement) :
  number_of_reviews soup = "N/A"
  <-> Forall (fun text => some_char isdigit text = false)
             (find_all_string review_count_text soup).
Proof.
  apply num_reviews_loop_sentinel.
Qed.

(** X7.  When the first string node mentioning [review] or [rating] that
    has a digit begins, after characters that are not digits, with a run
    of digits and commas, [number_of_reviews] is that run with its commas
    removed. *)
Theorem number_of_reviews_leading_count (soup : PageElement)
    (skipped later : list string) (pre run rest : string) (d : ascii) :
  find_all_string review_count_text soup
    = (skipped ++ (pre ++ String d run ++ rest)%string :: later)%list ->
  Forall (fun t => some_char isdigit t = false) skipped ->
  some_char isdigit pre = false ->
  isdigit d = true ->
  all_chars digit_or_comma run = true ->
  (rest = EmptyString
   \/ exists c rest', rest = String c rest' /\ digit_or_comma c = false) ->
  number_of_reviews soup = replace ","%char EmptyString (String d run).
Proof.
  intros Hfind Hskipped Hpre Hd Hrun Hrest.
  unfold number_of_reviews. rewrite Hfind, num_reviews_loop_skip by assumption.
  cbn [num_reviews_loop]. unfold re_findall_count.
  rewrite findall_skip by assumption.
  change (String d run ++ rest) with (String d (run ++ rest)).
  cbn [findall_from]. rewrite Hd.
  now rewrite take_while_run.
Qed.

Lemma number_of_reviews_leading_count_witness :
  number_of_reviews MoreDocs.review_count = "1234".
Proof.
  apply (number_of_reviews_leading_count MoreDocs.review_count [] []
           "Based on " ",234" " reviews" "1"%char).
  - reflexivity.
  - constructor.
  - reflexivity.
  - reflexivity.
  - reflexivity.
  - right. now exists " "%char, "reviews".
Defined.

(** X8.  [bestseller] is true exactly when one stripped string of the page
    contains [bestseller] in any casing, and then the lower-cased page
    text that [stock_status] scans contains it too. *)
Theorem bestseller_iff (soup : PageElement) :
  (bestseller soup = true
   <-> exists s, In s (stripped_strings soup)
                 /\ Substring "bestseller" (lower s))
  /\ (bestseller soup = true -> Substring "bestseller" (page_text soup)).
Proof.
  assert (Hiff : bestseller soup = true
                 <-> exists s, In s (stripped_strings soup)
                               /\ Substring "bestseller" (lower s)).
  { unfold bestseller. rewrite existsb_exists.
    split; intros [s [Hin Hs]]; exists s; split; auto;
      now apply contains_Substring. }
  split; [exact Hiff|].
  intros H. apply Hiff in H. destruct H as [s [Hin Hs]].
  apply (Substring_trans _ (lower s)); [exact Hs|].
  unfold page_text. now apply lower_Substring, In_join_Substring.
Qed.

Lemma bestseller_iff_witness :
  Substring "bestseller" (page_text MoreDocs.bestseller_page).
Proof.
  apply (proj2 (bestseller_iff MoreDocs.bestseller_page)).
  reflexivity.
Defined.

(** X9.  When [extract_reviews] returns, it returns one record per
    review container, in document order: the containers are all the tags
    of the page with a class token containing [review], a container nested
    in another one included, and the i-th record is the one built from the
    i-th container. *)
Theorem extract_reviews_one_per_container (soup : PageElement)
    (rs : list Review) :
  (extract_reviews soup = Return rs
   <-> Forall2 (fun c r => review_of c = Return r) (review_containers soup) rs)
  /\ (extract_reviews soup = Return rs ->
      List.length rs = List.length (review_containers soup))
  /\ (forall c, In c (review_containers soup)
                <-> In c (descendants soup) /\ is_tag c = true
                    /\ class_has "review" c = true).
Proof.
  unfold extract_reviews. split; [|split].
  - apply extract_reviews_loop_Forall2.
  - intros H. apply extract_reviews_loop_Forall2 in H.
    symmetry. exact (Forall2_length H).
  - intros c. unfold review_containers, find_all.
    now rewrite filter_In, andb_true_iff.
Qed.

Lemma extract_reviews_one_per_container_witness :
  List.length
    [{| star_rating := Some "rating";
        review_text := "May 2 Verified Purchase";
        review_date := "May 2";
        reviewer := "N/A";
        verified_purchase := true;
        helpful_votes := "N/A" |}]
  = List.length (review_containers MoreDocs.rated_review).
Proof.
  apply (proj1 (proj2 (extract_reviews_one_per_container
                         MoreDocs.rated_review _))).
  reflexivity.
Defined.

(** X10.  In every record [review_of] returns, the rating is a non-empty
    string (never [None]), the text is the container's stripped strings
    joined by single spaces, [helpful_votes] is [N/A] or a non-empty
    string of digits, and [verified_purchase] is true exactly when one
    stripped string of the container contains [verified purchase] in any
    casing, in which case the lower-cased review text contains it too. *)
Theorem review_of_fields (container : PageElement) (r : Review) :
  review_of container = Return r ->
  (exists s, star_rating r = Some s /\ s <> EmptyString)
  /\ review_text r = get_text " " true container
  /\ (helpful_votes r = "N/A"
      \/ (helpful_votes r <> EmptyString
          /\ all_chars isdigit (helpful_votes r) = true))
  /\ (verified_purchase r = true
      <-> exists s, In s (stripped_strings container)
                    /\ Substring "verified purchase" (lower s))
  /\ (verified_purchase r = true ->
      Substring "verified purchase" (lower (review_text r))).
Proof.
  unfold review_of. intros H.
  destruct (find_raising (first_class_has ["date"]) (descendants container))
    as [date_tag|e1]; simpl in H; [|discriminate].
  destruct (find_raising (first_class_has ["author"; "name"; "location"])
                         (descendants container))
    as [reviewer_tag|e2]; simpl in H; [|discriminate].
  injection H as <-. cbn [star_rating review_text helpful_votes
                          verified_purchase].
  assert (Hver : existsb (fun s => contains "verified purchase" (lower s))
                         (stripped_strings container) = true
                 <-> exists s, In s (stripped_strings container)
                               /\ Substring "verified purchase" (lower s)).
  { rewrite existsb_exists.
    split; intros [s [Hin Hs]]; exists s; split; auto;
      now apply contains_Substring. }
  split; [|split; [reflexivity|split; [|split; [exact Hver|]]]].
  - apply rating_nonempty. intros t Ht.
    destruct (find_tag (attr_has "aria-label" "star") container)
      as [t1|] eqn:F1.
    + injection Ht as ->. left. apply find_some in F1.
      destruct F1 as [_ F1]. apply andb_true_iff in F1.
      apply (attr_has_value "aria-label" "star"); [discriminate|].
      apply F1.
    + right. unfold find_tag in Ht. apply find_some in Ht.
      destruct Ht as [_ Ht]. apply andb_true_iff in Ht.
      destruct Ht as [_ Ht]. unfold img_alt_star in Ht.
      apply andb_true_iff in Ht. destruct Ht as [_ Ht].
      destruct (get "alt" t) as [a|]; [|discriminate].
      apply andb_true_iff in Ht. destruct Ht as [Ht _].
      exists a. split; [reflexivity | now apply truthy_iff].
  - apply helpful_votes_loop_digits.
  - intros Hv. apply Hver in Hv. destruct Hv as [s [Hin Hs]].
    apply (Substring_trans _ (lower s)); [exact Hs|].
    unfold get_text. now apply lower_Substring, In_join_Substring.
Qed.

Lemma review_of_fields_witness :
  exists r,
    review_of MoreDocs.rated_review_div = Return r
    /\ star_rating r = Some "rating"
    /\ Substring "verified purchase" (lower (review_text r)).
Proof.
  eexists. split; [reflexivity|]. split; [reflexivity|].
  apply (proj2 (proj2 (proj2 (proj2
           (review_of_fields MoreDocs.rated_review_div _ eq_refl))))).
  reflexivity.
Defined.

(** X11.  [extract_reviews] raises only [IndexError], and it does so
    exactly when, below some review container, the scan for the date or
    the scan for the reviewer meets a tag with an empty class list before
    a tag whose first class token qualifies; [scrape_product] raises
    exactly when [extract_reviews] does. *)
Theorem extract_reviews_raises_iff (order : SetOrder) (url : string)
    (soup : PageElement) (e : exn) :
  (extract_reviews soup = Raise e
   <-> e = IndexError
       /\ exists c,
            In c (review_containers soup)
            /\ (hits_empty_class ["date"] (descendants c)
                \/ hits_empty_class ["author"; "name"; "location"]
                                    (descendants c)))
  /\ (scrape_product order url soup = Raise e
      <-> extract_reviews soup = Raise e).
Proof.
  split.
  - unfold extract_reviews. rewrite extract_reviews_loop_raise. split.
    + intros [-> [c [Hin Hc]]]. split; [reflexivity|]. exists c.
      split; [exact Hin|]. now apply review_of_raise in Hc.
    + intros [-> [c [Hin Hc]]]. split; [reflexivity|]. exists c.
      split; [exact Hin|]. now apply review_of_raise.
  - unfold scrape_product.
    destruct (extract_reviews soup) as [rs|e0]; simpl;
      [split; discriminate|].
    split; intros H; injection H as ->; reflexivity.
Qed.

Lemma extract_reviews_raises_iff_witness :
  extract_reviews Docs.empty_class_review = Raise IndexError.
Proof.
  apply (proj1 (extract_reviews_raises_iff
                  insertion_order "https://shop.test/fit-me"
                  Docs.empty_class_review IndexError)).
  split; [reflexivity|]. exists MoreDocs.empty_class_div.
  split; [simpl; tauto|]. left.
  exists [], MoreDocs.empty_class_p, [Docs.text "Nice"].
  repeat split. constructor.
Defined.

(** X12.  In the record [scrape_product] returns, the [reviews] field is
    [N/A] exactly when the page has no review container. *)
Theorem reviews_field_sentinel_iff (order : SetOrder) (url : string)
    (soup : PageElement) (d : dict) :
  scrape_product order url soup = Return d ->
  (dict_get "reviews" d = Some (VStr "N/A") <-> review_containers soup = []).
Proof.
  unfold scrape_product, extract_reviews. intros H.
  destruct (extract_reviews_loop (review_containers soup)) as [rs|e] eqn:Hrs;
    simpl in H; [|discriminate].
  injection H as <-. cbn.
  apply extract_reviews_loop_Forall2 in Hrs.
  split.
  - intros H. injection H as H. apply flatten_reviews_sentinel in H.
    subst rs. now inversion Hrs.
  - intros H. rewrite H in Hrs. inversion Hrs. reflexivity.
Qed.

Lemma reviews_field_sentinel_iff_witness :
  exists d,
    scrape_product insertion_order "https://shop.test/fit-me"
                   MoreDocs.rated_review = Return d
    /\ review_containers MoreDocs.rated_review <> []
    /\ dict_get "reviews" d <> Some (VStr "N/A").
Proof.
  eexists. split; [reflexivity|]. split; [discriminate|].
  intros H.
  apply (reviews_field_sentinel_iff insertion_order "https://shop.test/fit-me"
           MoreDocs.rated_review _ eq_refl) in H.
  discriminate.
Defined.

(** X13.  The summary line of a review carries the first 100 characters
    of the review text: a text of at most 100 characters appears whole,
    and the line is never longer than rating, date and votes plus 136
    characters. *)
Theorem snippet_truncates (r : Review) :
  (exists rest, review_text r = slice_to 100 (review_text r) ++ rest)
  /\ String.length (slice_to 100 (review_text r))
     = Nat.min 100 (String.length (review_text r))
  /\ (String.length (review_text r) <= 100 ->
      snippet r
      = format_opt (star_rating r) ++ " | " ++ review_text r
        ++ " | " ++ review_date r
        ++ " | Verified: " ++ str_of_bool (verified_purchase r)
        ++ " | Helpful: " ++ helpful_votes r)
  /\ String.length (snippet r)
     <= String.length (format_opt (star_rating r))
        + String.length (review_date r)
        + String.length (helpful_votes r) + 136.
Proof.
  split; [apply slice_to_prefix|].
  split; [apply slice_to_length|]. split.
  - intros Hlen. unfold snippet. now rewrite slice_to_short.
  - unfold snippet. rewrite !length_append, slice_to_length.
    pose proof (Nat.le_min_l 100 (String.length (review_text r))) as Hmin.
    revert Hmin. generalize (Nat.min 100 (String.length (review_text r))).
    intros m Hm. destruct (verified_purchase r); simpl; lia.
Qed.

Lemma snippet_truncates_witness :
  snippet {| star_rating := Some "5 stars";
             review_text := "Great";
             review_date := "May 2";
             reviewer := "N/A";
             verified_purchase := false;
             helpful_votes := "3" |}
  = "5 stars | Great | May 2 | Verified: False | Helpful: 3".
Proof.
  apply (proj1 (proj2 (proj2 (snippet_truncates
           {| star_rating := Some "5 stars";
              review_text := "Great";
              review_date := "May 2";
              reviewer := "N/A";
              verified_purchase := false;
              helpful_votes := "3" |})))).
  simpl. lia.
Defined.

(** X14.  The record [scrape_product] returns has exactly the keys url,
    name, price, type, shades, image, ingredients, number_of_reviews,
    bestseller, stock_status, reviews, in this order; [url] is the URL
    given, [shades] a non-empty list and [bestseller] a bool. *)
Theorem scrape_product_keys (order : SetOrder) (url : string)
    (soup : PageElement) (d : dict) :
  scrape_product order url soup = Return d ->
  map fst d
  = ["url"; "name"; "price"; "type"; "shades"; "image"; "ingredients";
     "number_of_reviews"; "bestseller"; "stock_status"; "reviews"]
  /\ dict_get "url" d = Some (VStr url)
  /\ (exists l, dict_get "shades" d = Some (VList l) /\ l <> [])
  /\ dict_get "bestseller" d = Some (VBool (bestseller soup)).
Proof.
  unfold scrape_product. intros H.
  destruct (extract_reviews soup) as [rs|e]; simpl in H; [|discriminate].
  injection H as <-. cbn.
  repeat split. eexists. split; [reflexivity|].
  unfold extract_shades. destruct (filter _ _); discriminate.
Qed.

Lemma scrape_product_keys_witness :
  exists d,
    scrape_product insertion_order "https://shop.test/fit-me"
                   Docs.plain_page = Return d
    /\ dict_get "url" d = Some (VStr "https://shop.test/fit-me").
Proof.
  eexists. split; [reflexivity|].
  apply (scrape_product_keys insertion_order "https://shop.test/fit-me"
           Docs.plain_page _ eq_refl).
Defined.

(** X15.  A string is in the result of [extract_shades] exactly when it
    is the non-empty stripped text of a node below a tag whose class
    token, id, aria-label or title contains [shade] in any casing, or it
    is [N/A] and there is no such text; the filter of line 56 removes
    nothing, since such a text is never blank. *)
Theorem extract_shades_harvest (order : SetOrder) (soup : PageElement) :
  (forall x,
      In x (extract_shades order soup)
      <-> (exists elem d, In elem (selectors soup) /\ In d (descendants elem)
                          /\ get_text EmptyString true d = x
                          /\ x <> EmptyString)
          \/ (x = "N/A"
              /\ forall elem d, In elem (selectors soup) ->
                                In d (descendants elem) ->
                                get_text EmptyString true d = EmptyString))
  /\ (forall elem,
         In elem (selectors soup)
         <-> In elem (descendants soup) /\ is_tag elem = true
             /\ (class_has "shade" elem = true
                 \/ attr_has "id" "shade" elem = true
                 \/ attr_has "aria-label" "shade" elem = true
                 \/ attr_has "title" "shade" elem = true))
  /\ filter (fun x => negb (String.eqb (strip x) EmptyString))
            (order (shade_candidates soup))
     = order (shade_candidates soup).
Proof.
  assert (Hblank : forall x, In x (shade_candidates soup) ->
                             strip x <> EmptyString).
  { intros x Hx. apply shade_candidates_In in Hx.
    destruct Hx as [elem [d [_ [_ [<- Hne]]]]].
    now apply get_text_not_blank. }
  split; [|split].
  - intros x. rewrite extract_shades_In. split.
    + intros [[Hx _]|[-> Hall]].
      * left. now apply shade_candidates_In.
      * right. split; [reflexivity|]. intros elem d Helem Hd.
        destruct (string_dec (get_text EmptyString true d) EmptyString)
          as [H0|H0]; [exact H0|].
        exfalso. apply (Hblank (get_text EmptyString true d)).
        -- apply shade_candidates_In. exists elem, d. auto.
        -- apply Hall. apply shade_candidates_In. exists elem, d. auto.
    + intros [Hx|[-> Hall]].
      * left. apply shade_candidates_In in Hx. auto.
      * right. split; [reflexivity|]. intros y Hy. exfalso.
        apply shade_candidates_In in Hy.
        destruct Hy as [elem [d [Helem [Hd [Hy Hne]]]]].
        apply Hne. rewrite <- Hy. now apply (Hall elem d).
  - intros elem. unfold selectors, find_all.
    rewrite !in_app_iff, !filter_In, !andb_true_iff. tauto.
  - apply filter_all_true. intros x Hx. apply set_iter_In in Hx.
    apply negb_true_iff, String.eqb_neq. now apply Hblank.
Qed.

Lemma extract_shades_harvest_witness :
  In "IvorySand" (extract_shades insertion_order MoreDocs.nested_shades).
Proof.
  apply (proj1 (extract_shades_harvest insertion_order MoreDocs.nested_shades)).
  left. exists MoreDocs.nested_shades_div, MoreDocs.nested_shades_ul.
  repeat split; simpl; try tauto. discriminate.
Defined.

(** X16.  Whatever fails along the way (a page that cannot be fetched, an
    exception of the extractors, a write that fails), the results the run
    ends with are exactly the records of the URLs whose scrape returned,
    in the order of the URLs. *)
Theorem runner_keeps_successes (order : SetOrder) (w : World)
    (product_urls : list string) :
  fst (main order w product_urls) = scraped order w 0 product_urls
  /\ List.length (fst (main order w product_urls))
     <= List.length product_urls.
Proof.
  rewrite main_fst, loop_results. simpl. split; [reflexivity|].
  generalize 0 as i. induction product_urls as [|url rest IH]; intros i;
    simpl; [lia|].
  specialize (IH (S i)).
  destruct (scrape order w i url); simpl; lia.
Qed.

(** X17.  Every URL of the list is attempted, in order, also after a
    failure: the URLs the run announces are the URLs it was given, and the
    run ends by quitting the driver and printing the closing line. *)
Theorem runner_attempts_every_url (order : SetOrder) (w : World)
    (product_urls : list string) :
  announced (snd (main order w product_urls)) = product_urls
  /\ exists out, snd (main order w product_urls)
                 = (out ++ [Quit; Complete])%list.
Proof.
  rewrite main_snd. split.
  - unfold announced. rewrite flat_map_app. simpl. rewrite app_nil_r.
    apply loop_announced.
  - now eexists.
Qed.

(** X18.  Every file the run writes goes to
    [output/maybelline_products_with_reviews.csv], is not empty, and holds
    a prefix of the results the run ends with: a later write only adds
    rows. *)
Theorem runner_written_prefixes (order : SetOrder) (w : World)
    (product_urls : list string) :
  Forall (fun pr => fst pr = "output/maybelline_products_with_reviews.csv"
                    /\ snd pr <> []
                    /\ exists later,
                         fst (main order w product_urls)
                         = (snd pr ++ later)%list)
         (written (snd (main order w product_urls))).
Proof.
  rewrite main_snd, main_fst. unfold written. rewrite flat_map_app.
  simpl. rewrite app_nil_r. apply loop_written.
Qed.

End Extras.
